(** * Book-collection API: a shallow embedding of [app.py] and [models.py]

    The Flask handlers of [src/app.py] are embedded as functions from a
    database state and the request's inputs to the next database state and
    an HTTP response.  The ORM classes of [src/models.py] become records.

    Conventions of the model.
    - A Python [str] is a [string] holding its UTF-8 bytes.
    - A value decoded from the request's JSON body is a [json]; the
      attributes of a [Book] that the handlers assign from the body hold
      such values, as Python attributes do.
    - The body of a handler's [try] block is a computation in the error
      monad [outcome]; [except Exception] is [except_Exception].
    - The relational store never fails on its own.  Its [=] compares
      text exactly, its [LIKE] ignores the case of ASCII letters.  At
      flush time it refuses a NULL for a [nullable=False] column.  What
      a store does with a value outside a column's declared text type
      and length differs from store to store: the model refuses it, and
      the properties of accepted requests do not rest on that refusal.
      Likewise the identity counter [next_BookID] is the model's way to
      pick a key that no row has; which unused key a store picks is its
      own matter. *)

From Stdlib Require Import ZArith List String Ascii Bool Lia.
Import ListNotations.

Local Open Scope string_scope.
Local Open Scope Z_scope.

Set Warnings "-register-all".

(** ** Python values and exceptions *)

(** What [request.get_json()] returns: the decoded body, [JNull] being
    Python's [None].  Numbers are the integers; a request whose body does
    not decode is not a value of this type. *)
Inductive json : Type :=
| JNull
| JBool (b : bool)
| JNum (n : Z)
| JStr (s : string)
| JArr (l : list json)
| JObj (d : list (string * json)).

(** The exceptions the handlers can meet; all derive from [Exception]. *)
Inductive exn : Type :=
| NotFound                       (* werkzeug.exceptions.NotFound, from abort(404) *)
| AttributeError (msg : string)
| TypeError (msg : string)
| KeyError (key : string)
| IntegrityError (msg : string)  (* a NOT NULL column received NULL *)
| DataError (msg : string).      (* a value the column's type refuses *)

(** [str(e)] *)
Definition str (e : exn) : string :=
  match e with
  | NotFound =>
      "404 Not Found: The requested URL was not found on the server. " ++
      "If you entered the URL manually please check your spelling and try again."
  | AttributeError msg => msg
  | TypeError msg => msg
  | KeyError key => "'" ++ key ++ "'"
  | IntegrityError msg => msg
  | DataError msg => msg
  end.

Inductive outcome (A : Type) : Type :=
| Ok (a : A)
| Raise (e : exn).
Arguments Ok {A} a.
Arguments Raise {A} e.

Definition bind {A B} (m : outcome A) (k : A -> outcome B) : outcome B :=
  match m with
  | Ok a => k a
  | Raise e => Raise e
  end.

Notation "x <- m ;; k" := (bind m (fun x => k))
  (at level 61, m at next level, right associativity).

(** [try: body  except Exception as e: handler(e)] *)
Definition except_Exception {A} (body : outcome A) (handler : exn -> A) : A :=
  match body with
  | Ok a => a
  | Raise e => handler e
  end.

(** Python truthiness, as used by [not x] and [x or y]. *)
Definition truthy (v : json) : bool :=
  match v with
  | JNull => false
  | JBool b => b
  | JNum n => negb (n =? 0)
  | JStr s => negb (s =? "")%string
  | JArr l => match l with [] => false | _ => true end
  | JObj d => match d with [] => false | _ => true end
  end.

(** [x or y] *)
Definition py_or (x y : json) : json := if truthy x then x else y.

(** [type(v).__name__] *)
Definition type_name (v : json) : string :=
  match v with
  | JNull => "NoneType"
  | JBool _ => "bool"
  | JNum _ => "int"
  | JStr _ => "str"
  | JArr _ => "list"
  | JObj _ => "dict"
  end.

(** Lookup in a [dict]: the first binding of the key. *)
Fixpoint dict_get (d : list (string * json)) (k : string) : option json :=
  match d with
  | [] => None
  | (k', v) :: d' => if (k =? k')%string then Some v else dict_get d' k
  end.

(** [kw in s] on two [str]: [kw] occurs in [s] as a contiguous substring. *)
Fixpoint contains (kw s : string) : bool :=
  prefix kw s ||
  match s with
  | EmptyString => false
  | String _ s' => contains kw s'
  end.

(** [data.get(key)]: only a [dict] has the method. *)
Definition py_get (data : json) (key : string) : outcome json :=
  match data with
  | JObj d => Ok (match dict_get d key with Some v => v | None => JNull end)
  | _ => Raise (AttributeError
                  ("'" ++ type_name data ++ "' object has no attribute 'get'"))
  end.

(** [data.get(key, default)] *)
Definition py_get_default (data : json) (key : string) (default : json)
  : outcome json :=
  match data with
  | JObj d => Ok (match dict_get d key with Some v => v | None => default end)
  | _ => Raise (AttributeError
                  ("'" ++ type_name data ++ "' object has no attribute 'get'"))
  end.

(** [data[key]] with a [str] key. *)
Definition py_getitem (data : json) (key : string) : outcome json :=
  match data with
  | JObj d => match dict_get d key with
              | Some v => Ok v
              | None => Raise (KeyError key)
              end
  | JStr _ => Raise (TypeError "string indices must be integers, not 'str'")
  | JArr _ => Raise (TypeError "list indices must be integers or slices, not str")
  | _ => Raise (TypeError
                  ("'" ++ type_name data ++ "' object is not subscriptable"))
  end.

(** [key in data] with a [str] key. *)
Definition py_in (key : string) (data : json) : outcome bool :=
  match data with
  | JObj d => Ok (match dict_get d key with Some _ => true | None => false end)
  | JStr s => Ok (contains key s)
  | JArr l => Ok (existsb (fun x => match x with
                                   | JStr s => (key =? s)%string
                                   | _ => false
                                   end) l)
  | _ => Raise (TypeError
                  ("argument of type '" ++ type_name data ++ "' is not iterable"))
  end.

(** ** models.py *)

(** A [datetime] or [date] is modelled by its ISO-8601 text, so that
    [isoformat] has nothing left to do. *)
Definition datetime := string.
Definition isoformat (d : datetime) : string := d.

(** [class Book(db.Model)].  [BookID] and [CreateDate] are [None] on an
    object that was not flushed yet. *)
Record Book : Type := {
  BookID : option Z;
  ISBN : json;
  Title : json;
  Author : json;
  Publisher : json;
  Category : json;
  Status : json;
  CreateDate : option datetime
}.

(** [Book.to_dict] *)
Definition to_dict (self : Book) : json :=
  JObj [ ("bookID", match BookID self with Some i => JNum i | None => JNull end);
         ("isbn", ISBN self);
         ("title", Title self);
         ("author", Author self);
         ("publisher", Publisher self);
         ("category", Category self);
         ("status", Status self);
         ("createDate", match CreateDate self with
                        | Some d => JStr (isoformat d)
                        | None => JNull
                        end) ].

(** [class BorrowRecord(db.Model)]; its [BookID] column is [BR_BookID]. *)
Record BorrowRecord : Type := {
  RecordID : Z;
  BR_BookID : Z;
  BorrowerName : string;
  BorrowDate : datetime;
  ReturnDate : option datetime;
  Notes : option string
}.

(** The two tables, in insertion order, and the identity counter of
    [Books.BookID]. *)
Record DB : Type := {
  Books : list Book;
  BorrowRecords : list BorrowRecord;
  next_BookID : Z
}.

(** *** What the declared columns accept *)

(** The six text columns of [Books], by attribute name. *)
Definition column (self : Book) (name : string) : json :=
  if (name =? "ISBN")%string then ISBN self
  else if (name =? "Title")%string then Title self
  else if (name =? "Author")%string then Author self
  else if (name =? "Publisher")%string then Publisher self
  else if (name =? "Category")%string then Category self
  else Status self.

(** [db.String(n)] of each column. *)
Definition column_size (name : string) : nat :=
  if (name =? "ISBN")%string then 20
  else if (name =? "Title")%string then 200
  else if (name =? "Author")%string then 100
  else if (name =? "Publisher")%string then 100
  else if (name =? "Category")%string then 50
  else 10.

(** [nullable=False] is declared on [ISBN], [Title] and [Author]. *)
Definition column_nullable (name : string) : bool :=
  negb ((name =? "ISBN") || (name =? "Title") || (name =? "Author"))%string.

Definition text_columns : list string :=
  ["ISBN"; "Title"; "Author"; "Publisher"; "Category"; "Status"].

(** The store's answer when a value is written to a column. *)
Definition check_column (name : string) (v : json) : outcome unit :=
  match v with
  | JNull =>
      if column_nullable name then Ok tt
      else Raise (IntegrityError
                    ("Cannot insert the value NULL into column '" ++ name ++ "'"))
  | JStr s =>
      if (String.length s <=? column_size name)%nat then Ok tt
      else Raise (DataError
                    ("String or binary data would be truncated in column '"
                       ++ name ++ "'"))
  | _ =>
      Raise (DataError
               ("Invalid parameter type '" ++ type_name v
                  ++ "' for column '" ++ name ++ "'"))
  end.

Fixpoint check_columns (self : Book) (names : list string) : outcome unit :=
  match names with
  | [] => Ok tt
  | name :: rest =>
      _ <- check_column name (column self name) ;;
      check_columns self rest
  end.

(** *** Queries *)

Definition has_id (book_id : Z) (b : Book) : bool :=
  match BookID b with
  | Some i => i =? book_id
  | None => false
  end.

(** [Book.query.get(book_id)] *)
Definition query_get (s : DB) (book_id : Z) : option Book :=
  find (has_id book_id) (Books s).

(** [Book.query.get_or_404(book_id)]: [abort(404)] raises [NotFound]. *)
Definition get_or_404 (s : DB) (book_id : Z) : outcome Book :=
  match query_get s book_id with
  | Some book => Ok book
  | None => Raise NotFound
  end.

(** [Book.query.all()] *)
Definition query_all (s : DB) : list Book := Books s.

(** [Book.query.count()] and [....filter_by(...).count()] *)
Definition count {A} (rows : list A) : Z := Z.of_nat (List.length rows).

(** The SQL comparison [column = 'text']: it holds for no NULL. *)
Definition sql_eq (v : json) (text : string) : bool :=
  match v with
  | JStr s => (s =? text)%string
  | _ => false
  end.

(** The letter that [LIKE] compares: an ASCII capital stands for its
    small letter, every other byte for itself. *)
Definition fold_case (c : ascii) : ascii :=
  let n := N_of_ascii c in
  if ((65 <=? n) && (n <=? 90))%N then ascii_of_N (n + 32) else c.

(** The number of bytes that follow the first byte [d] of a UTF-8
    character. *)
Definition bytes_after (d : ascii) : nat :=
  let n := N_of_ascii d in
  if (n <? 192)%N then 0%nat
  else if (n <? 224)%N then 1%nat
  else if (n <? 240)%N then 2%nat
  else 3%nat.

(** A byte that continues a UTF-8 character. *)
Definition continues (e : ascii) : bool :=
  let n := N_of_ascii e in ((128 <=? n) && (n <? 192))%N.

(** [s] without up to [n] leading bytes that continue a character. *)
Fixpoint skip_rest (n : nat) (s : string) : string :=
  match n, s with
  | S n', String e s' => if continues e then skip_rest n' s' else s
  | _, _ => s
  end.

(** The SQL operator [s LIKE pattern]: [%] stands for any run of
    characters, [_] for any single character (all the bytes of its UTF-8
    form, from its first byte on), any other character for itself, ASCII
    letters without regard to their case; no escape character is set. *)
Fixpoint like (pattern s : string) {struct pattern} : bool :=
  match pattern with
  | EmptyString => match s with EmptyString => true | _ => false end
  | String c pattern' =>
      if (c =? "%")%char then
        (fix any_run (s : string) : bool :=
           like pattern' s ||
           match s with
           | EmptyString => false
           | String _ s' => any_run s'
           end) s
      else
        match s with
        | EmptyString => false
        | String d s' =>
            if (c =? "_")%char then
              negb (continues d) && like pattern' (skip_rest (bytes_after d) s')
            else (fold_case c =? fold_case d)%char && like pattern' s'
        end
  end.

(** [column.like(pattern)] in a [filter]: a NULL is never selected. *)
Definition sql_like (v : json) (pattern : string) : bool :=
  match v with
  | JStr s => like pattern s
  | _ => false
  end.

(** The key test of [GROUP BY] on a text column: the NULLs form one
    group, two texts are in one group when they are equal. *)
Definition same_group (x y : json) : bool :=
  match x, y with
  | JNull, JNull => true
  | JStr a, JStr b => (a =? b)%string
  | _, _ => false
  end.

(** One more row with key [k] for the groups built so far. *)
Fixpoint add_to_group (k : json) (groups : list (json * Z)) : list (json * Z) :=
  match groups with
  | [] => [(k, 1)]
  | (k', n) :: rest =>
      if same_group k k' then (k', n + 1) :: rest
      else (k', n) :: add_to_group k rest
  end.

(** [SELECT Category, COUNT( * ) FROM Books GROUP BY Category].  SQL leaves
    the order of the groups open; here it is the order of first
    appearance. *)
Definition group_by_Category (rows : list Book) : list (json * Z) :=
  fold_left (fun groups b => add_to_group (Category b) groups) rows [].

(** *** The session: flush and commit *)

(** [db.session.rollback()]: nothing of the request was committed, the
    tables are those the request started from. *)
Definition rollback (s : DB) : DB := s.

(** [db.session.add(book); db.session.commit()].  The INSERT leaves out
    the attributes that are [None], so a column default declared in
    [models.py] applies to them: ['在架'] for [Status], [datetime.utcnow]
    for [CreateDate]; [BookID] is the next identity value.  The object is
    refreshed from the inserted row. *)
Definition session_add_commit (s : DB) (utcnow : datetime) (book : Book)
  : outcome (DB * Book) :=
  let row := {| BookID := Some (next_BookID s);
                ISBN := ISBN book;
                Title := Title book;
                Author := Author book;
                Publisher := Publisher book;
                Category := Category book;
                Status := match Status book with
                          | JNull => JStr "在架"
                          | v => v
                          end;
                CreateDate := Some utcnow |} in
  _ <- check_columns row text_columns ;;
  Ok ({| Books := Books s ++ [row];
         BorrowRecords := BorrowRecords s;
         next_BookID := next_BookID s + 1 |}, row).

(** A loaded object together with the names of the attributes assigned
    since it was loaded. *)
Record tracked : Type := {
  object : Book;
  dirty : list string
}.

Definition set_ISBN (v : json) (t : tracked) : tracked :=
  let b := object t in
  {| object := {| BookID := BookID b; ISBN := v; Title := Title b;
                  Author := Author b; Publisher := Publisher b;
                  Category := Category b; Status := Status b;
                  CreateDate := CreateDate b |};
     dirty := "ISBN" :: dirty t |}.

Definition set_Title (v : json) (t : tracked) : tracked :=
  let b := object t in
  {| object := {| BookID := BookID b; ISBN := ISBN b; Title := v;
                  Author := Author b; Publisher := Publisher b;
                  Category := Category b; Status := Status b;
                  CreateDate := CreateDate b |};
     dirty := "Title" :: dirty t |}.

Definition set_Author (v : json) (t : tracked) : tracked :=
  let b := object t in
  {| object := {| BookID := BookID b; ISBN := ISBN b; Title := Title b;
                  Author := v; Publisher := Publisher b;
                  Category := Category b; Status := Status b;
                  CreateDate := CreateDate b |};
     dirty := "Author" :: dirty t |}.

Definition set_Publisher (v : json) (t : tracked) : tracked :=
  let b := object t in
  {| object := {| BookID := BookID b; ISBN := ISBN b; Title := Title b;
                  Author := Author b; Publisher := v;
                  Category := Category b; Status := Status b;
                  CreateDate := CreateDate b |};
     dirty := "Publisher" :: dirty t |}.

Definition set_Category (v : json) (t : tracked) : tracked :=
  let b := object t in
  {| object := {| BookID := BookID b; ISBN := ISBN b; Title := Title b;
                  Author := Author b; Publisher := Publisher b;
                  Category := v; Status := Status b;
                  CreateDate := CreateDate b |};
     dirty := "Category" :: dirty t |}.

Definition set_Status (v : json) (t : tracked) : tracked :=
  let b := object t in
  {| object := {| BookID := BookID b; ISBN := ISBN b; Title := Title b;
                  Author := Author b; Publisher := Publisher b;
                  Category := Category b; Status := v;
                  CreateDate := CreateDate b |};
     dirty := "Status" :: dirty t |}.

(** The UPDATE of one row: every row with the object's key takes the
    object's attributes. *)
Definition replace_row (book : Book) (rows : list Book) : list Book :=
  map (fun r => match BookID book with
                | Some i => if has_id i r then book else r
                | None => r
                end) rows.

(** [db.session.commit()] with one modified object: the UPDATE carries
    the assigned columns, the store checks them and writes the row. *)
Definition session_commit (s : DB) (t : tracked) : outcome DB :=
  _ <- check_columns (object t) (dirty t) ;;
  Ok {| Books := replace_row (object t) (Books s);
        BorrowRecords := BorrowRecords s;
        next_BookID := next_BookID s |}.

(** [BorrowRecord.query.filter_by(BookID=book_id, ReturnDate=None)] *)
Definition active_loan (book_id : Z) (r : BorrowRecord) : bool :=
  (BR_BookID r =? book_id) &&
  match ReturnDate r with None => true | Some _ => false end.

(** [db.session.delete(book); db.session.commit()].  The relationship
    [borrow_records] declares no cascade, so the flush first sets
    [BookID] of the records of the book to NULL; that column is
    [nullable=False], and the store refuses. *)
Definition session_delete_commit (s : DB) (book_id : Z) : outcome DB :=
  match filter (fun r => BR_BookID r =? book_id) (BorrowRecords s) with
  | [] =>
      Ok {| Books := filter (fun b => negb (has_id book_id b)) (Books s);
            BorrowRecords := BorrowRecords s;
            next_BookID := next_BookID s |}
  | _ :: _ =>
      Raise (IntegrityError
               "Cannot insert the value NULL into column 'BookID'")
  end.

(** ** app.py *)

Record response : Type := {
  body : json;
  status : Z
}.

(** [jsonify({"error": msg})] *)
Definition error_body (msg : string) : json := JObj [("error", JStr msg)].

(** [{"error": msg}]'s message, when the body is of that shape. *)
Definition error_of (r : response) : option string :=
  match body r with
  | JObj [("error", JStr msg)] => Some msg
  | _ => None
  end.

(** [get_all_books] *)
Definition get_all_books (s : DB) : DB * response :=
  except_Exception
    (let books := query_all s in
     Ok (s, {| body := JArr (map to_dict books); status := 200 |}))
    (fun e => (s, {| body := error_body (str e); status := 500 |})).

(** [get_book] *)
Definition get_book (s : DB) (book_id : Z) : DB * response :=
  except_Exception
    (book <- get_or_404 s book_id ;;
     Ok (s, {| body := to_dict book; status := 200 |}))
    (fun e => (s, {| body := error_body (str e); status := 500 |})).

Definition required_fields : list string := ["isbn"; "title"; "author"].

(** The loop of [add_book] over [required_fields]: the first field whose
    value is missing or falsy, if any. *)
Fixpoint first_missing (data : json) (fields : list string)
  : outcome (option string) :=
  match fields with
  | [] => Ok None
  | field :: rest =>
      v <- py_get data field ;;
      if negb (truthy v) then Ok (Some field)
      else first_missing data rest
  end.

(** [add_book]; [data] is [request.get_json()], [utcnow] the clock read
    by the default of [CreateDate]. *)
Definition add_book (s : DB) (utcnow : datetime) (data : json)
  : DB * response :=
  except_Exception
    (if negb (truthy data) then
       Ok (s, {| body := error_body "没有提供数据"; status := 400 |})
     else
       missing <- first_missing data required_fields ;;
       match missing with
       | Some field =>
           Ok (s, {| body := error_body ("字段 '" ++ field ++ "' 是必需的");
                     status := 400 |})
       | None =>
           isbn <- py_getitem data "isbn" ;;
           title <- py_getitem data "title" ;;
           author <- py_getitem data "author" ;;
           publisher <- py_get data "publisher" ;;
           category <- py_get data "category" ;;
           status_ <- py_get_default data "status" (JStr "在架") ;;
           let book := {| BookID := None; ISBN := isbn; Title := title;
                          Author := author; Publisher := publisher;
                          Category := category; Status := status_;
                          CreateDate := None |} in
           added <- session_add_commit s utcnow book ;;
           Ok (fst added, {| body := to_dict (snd added); status := 201 |})
       end)
    (fun e => (rollback s, {| body := error_body (str e); status := 500 |})).

(** [if key in data: book.attr = data[key]] *)
Definition assign_if_present (data : json) (key : string)
           (set : json -> tracked -> tracked) (t : tracked) : outcome tracked :=
  present <- py_in key data ;;
  if present then
    v <- py_getitem data key ;;
    Ok (set v t)
  else Ok t.

(** [update_book] *)
Definition update_book (s : DB) (book_id : Z) (data : json) : DB * response :=
  except_Exception
    (book <- get_or_404 s book_id ;;
     let t := {| object := book; dirty := [] |} in
     t <- assign_if_present data "isbn" set_ISBN t ;;
     t <- assign_if_present data "title" set_Title t ;;
     t <- assign_if_present data "author" set_Author t ;;
     t <- assign_if_present data "publisher" set_Publisher t ;;
     t <- assign_if_present data "category" set_Category t ;;
     t <- assign_if_present data "status" set_Status t ;;
     s' <- session_commit s t ;;
     Ok (s', {| body := to_dict (object t); status := 200 |}))
    (fun e => (rollback s, {| body := error_body (str e); status := 500 |})).

(** [delete_book] *)
Definition delete_book (s : DB) (book_id : Z) : DB * response :=
  except_Exception
    (book <- get_or_404 s book_id ;;
     let active_records := find (active_loan book_id) (BorrowRecords s) in
     match active_records with
     | Some _ =>
         Ok (s, {| body := error_body "该图书有未归还的借阅记录，无法删除";
                   status := 400 |})
     | None =>
         s' <- session_delete_commit s book_id ;;
         Ok (s', {| body := JObj [("message", JStr "图书删除成功")];
                    status := 200 |})
     end)
    (fun e => (rollback s, {| body := error_body (str e); status := 500 |})).

(** [search_books]; [keyword] is the query parameter, [None] when the
    request has none. *)
Definition search_books (s : DB) (keyword : option string) : DB * response :=
  except_Exception
    (let keyword := match keyword with Some k => k | None => "" end in
     let books :=
       if negb (truthy (JStr keyword)) then query_all s
       else filter (fun b => sql_like (Title b) ("%" ++ keyword ++ "%") ||
                             sql_like (Author b) ("%" ++ keyword ++ "%"))
                   (Books s) in
     Ok (s, {| body := JArr (map to_dict books); status := 200 |}))
    (fun e => (s, {| body := error_body (str e); status := 500 |})).

(** [get_summary_stats] *)
Definition get_summary_stats (s : DB) : DB * response :=
  except_Exception
    (let total_books := count (Books s) in
     let borrowed_books :=
       count (filter (fun b => sql_eq (Status b) "借出") (Books s)) in
     let available_books := total_books - borrowed_books in
     Ok (s, {| body := JObj [("totalBooks", JNum total_books);
                             ("borrowedBooks", JNum borrowed_books);
                             ("availableBooks", JNum available_books)];
               status := 200 |}))
    (fun e => (s, {| body := error_body (str e); status := 500 |})).

(** The list [stats] built by the loop of [get_category_stats], as pairs
    of the values under ['category'] and ['count']. *)
Definition category_stats (s : DB) : list (json * Z) :=
  map (fun row => (py_or (fst row) (JStr "未分类"), snd row))
      (group_by_Category (Books s)).

(** [get_category_stats] *)
Definition get_category_stats (s : DB) : DB * response :=
  except_Exception
    (let stats :=
       map (fun e => JObj [("category", fst e); ("count", JNum (snd e))])
           (category_stats s) in
     Ok (s, {| body := JArr stats; status := 200 |}))
    (fun e => (s, {| body := error_body (str e); status := 500 |})).

(** [init_database]: the seed of an empty [Books] table. *)
Definition sample_book (isbn title author publisher category : string) : Book :=
  {| BookID := None; ISBN := JStr isbn; Title := JStr title;
     Author := JStr author; Publisher := JStr publisher;
     Category := JStr category; Status := JNull; CreateDate := None |}.

Definition sample_books : list Book :=
  [ sample_book "9787115546081" "软件工程" "张三" "清华大学出版社" "计算机";
    sample_book "9787121361972" "Java编程思想" "李四" "电子工业出版社" "计算机";
    sample_book "9787544291170" "百年孤独" "加西亚·马尔克斯" "南海出版公司" "文学" ].

(** [db.session.bulk_save_objects(books); db.session.commit()] *)
Fixpoint bulk_save_objects (s : DB) (utcnow : datetime) (books : list Book)
  : outcome DB :=
  match books with
  | [] => Ok s
  | book :: rest =>
      added <- session_add_commit s utcnow book ;;
      bulk_save_objects (fst added) utcnow rest
  end.

(** The tables right after [db.create_all()]. *)
Definition created : DB :=
  {| Books := []; BorrowRecords := []; next_BookID := 1 |}.

Definition init_database (s : DB) (utcnow : datetime) : DB :=
  except_Exception
    (if count (Books s) =? 0 then bulk_save_objects s utcnow sample_books
     else Ok s)
    (fun e => s).

(** ** Concrete states used by the examples *)

Definition seeded : DB := init_database created "2024-01-01T00:00:00".

(** The first seeded row. *)
Definition seeded_1 : Book :=
  Eval cbv in hd (sample_book "" "" "" "" "") (Books seeded).

(** A loan of book 1 that was not returned. *)
Definition loan_1 : BorrowRecord :=
  {| RecordID := 1; BR_BookID := 1; BorrowerName := "王五";
     BorrowDate := "2024-02-01"; ReturnDate := None; Notes := None |}.

(** The seeded tables with that loan. *)
Definition on_loan : DB :=
  {| Books := Books seeded;
     BorrowRecords := [loan_1];
     next_BookID := next_BookID seeded |}.

(** The seeded tables after [PUT /api/books/1] with [{"status": "borrowed"}]. *)
Definition relabelled : DB :=
  fst (update_book seeded 1 (JObj [("status", JStr "borrowed")])).

(** A request body with the three required fields only. *)
Definition minimal_body : json :=
  JObj [("isbn", JStr "111"); ("title", JStr "A"); ("author", JStr "B")].

(** The empty tables after one [POST /api/books] of [minimal_body]: one
    book, without a category. *)
Definition one_plain : DB :=
  fst (add_book created "2024-03-01T00:00:00" minimal_body).

(** [one_plain] after a second [POST] whose category is the empty text. *)
Definition plain_and_blank : DB :=
  fst (add_book one_plain "2024-03-02T00:00:00"
         (JObj [("isbn", JStr "222"); ("title", JStr "C"); ("author", JStr "D");
                ("category", JStr "")])).

(** ** Vocabulary of the specification *)

(** The value under [key] of a response whose body is a JSON object. *)
Definition field_of (r : response) (key : string) : option json :=
  match body r with
  | JObj d => dict_get d key
  | _ => None
  end.

(** The [key] of every entry of a response whose body is a JSON array of
    objects. *)
Definition column_of (r : response) (key : string) : list (option json) :=
  match body r with
  | JArr l => map (fun e => match e with
                            | JObj d => dict_get d key
                            | _ => None
                            end) l
  | _ => []
  end.

(** A request body lacks a field, or gives it an empty value. *)
Definition lacks (data : json) (field : string) : bool :=
  match data with
  | JObj d => match dict_get d field with
              | Some v => negb (truthy v)
              | None => true
              end
  | _ => true
  end.

(** [kw] occurs in [s]. *)
Definition substring_of (kw s : string) : Prop :=
  exists before after, s = before ++ kw ++ after.



(** A column value is exactly the text [label]. *)
Definition is_text (v : json) (label : string) : {v = JStr label} + {v <> JStr label}.
Proof.
  destruct v as [| b | n | s | l | d]; try (right; discriminate).
  destruct (string_dec s label) as [E | N].
  - left; now rewrite E.
  - right; intros H; apply N; now inversion H.
Defined.

(** The number of rows whose [Status] is exactly [label]. *)
Definition with_status (label : string) (rows : list Book) : Z :=
  Z.of_nat (List.length
              (filter (fun b => if is_text (Status b) label then true else false)
                      rows)).

(** The number of rows whose [Category] is exactly the value [v] (a text
    or NULL). *)
Definition with_category (v : json) (rows : list Book) : Z :=
  Z.of_nat (List.length (filter (fun b => same_group v (Category b)) rows)).

Fixpoint sum_counts (stats : list (json * Z)) : Z :=
  match stats with
  | [] => 0
  | (_, n) :: rest => n + sum_counts rest
  end.

(** The value an attribute has after a sparse update: the supplied one
    when the request has the key, the old one otherwise. *)
Definition updated (d : list (string * json)) (key : string) (old : json) : json :=
  match dict_get d key with
  | Some v => v
  | None => old
  end.

(** The request keys of [update_book] and the columns they are written to. *)
Definition update_fields : list (string * string) :=
  [ ("isbn", "ISBN"); ("title", "Title"); ("author", "Author");
    ("publisher", "Publisher"); ("category", "Category"); ("status", "Status") ].

(** Every value the request supplies is one its column accepts. *)
Definition acceptable (d : list (string * json)) : bool :=
  forallb (fun f => match dict_get d (fst f) with
                    | Some v => match check_column (snd f) v with
                                | Ok _ => true
                                | Raise _ => false
                                end
                    | None => true
                    end) update_fields.

(** The text of a message names a field. *)
Definition names (msg field : string) : bool := contains field msg.

(** What the specification promises of [POST /api/books] for a body that
    lacks [field]: status 400, an error message that names the field, and
    no row inserted. *)
Definition rejects_naming (s : DB) (utcnow : datetime) (data : json)
           (field : string) : Prop :=
  lacks data field = true ->
  status (snd (add_book s utcnow data)) = 400
  /\ (exists msg, error_of (snd (add_book s utcnow data)) = Some msg
                  /\ names msg field = true)
  /\ Books (fst (add_book s utcnow data)) = Books s.

(** The count that a list of groups holds for the key [v]; 0 when no
    group has that key. *)
Definition group_count (v : json) (groups : list (json * Z)) : Z :=
  match find (fun e => same_group v (fst e)) groups with
  | Some e => snd e
  | None => 0
  end.

(** The position of the group in which a row with key [v] is counted. *)
Fixpoint bucket_index (v : json) (groups : list (json * Z)) : option nat :=
  match groups with
  | [] => None
  | (k, _) :: rest =>
      if same_group v k then Some 0%nat
      else option_map S (bucket_index v rest)
  end.

(** Books without a category and books whose category is the empty text
    are counted in one and the same entry of the category statistics. *)
Definition blank_joins_null (s : DB) : Prop :=
  bucket_index (JStr "") (group_by_Category (Books s))
  = bucket_index JNull (group_by_Category (Books s)).

(** [s] with its ASCII capitals turned into small letters. *)
Fixpoint lower (s : string) : string :=
  match s with
  | EmptyString => EmptyString
  | String c s' => String (fold_case c) (lower s')
  end.

(** A column value is a text in which [kw] occurs, the case of ASCII
    letters not counting. *)
Definition text_matches (kw : string) (v : json) : bool :=
  match v with
  | JStr s => contains (lower kw) (lower s)
  | _ => false
  end.



(** The book a sparse update of [book] by the request object [d] is to
    yield: the key and the creation date stay, each text attribute is
    [updated]. *)
Definition sparse_update (d : list (string * json)) (book : Book) : Book :=
  {| BookID := BookID book;
     ISBN := updated d "isbn" (ISBN book);
     Title := updated d "title" (Title book);
     Author := updated d "author" (Author book);
     Publisher := updated d "publisher" (Publisher book);
     Category := updated d "category" (Category book);
     Status := updated d "status" (Status book);
     CreateDate := CreateDate book |}.

(** What the specification promises of [PUT /api/books/{id}] for every
    request object: each field present in it has the supplied value in
    the book stored afterwards. *)
Definition takes_supplied_values (s : DB) (book_id : Z)
           (d : list (string * json)) : Prop :=
  forall key col v,
    In (key, col) update_fields ->
    dict_get d key = Some v ->
    exists book',
      query_get (fst (update_book s book_id (JObj d))) book_id = Some book'
      /\ column book' col = v.

(** ** Case analysis on a request object *)

(** Whether the request object has the key. *)
Ltac supplied d key E :=
  destruct (dict_get d key) as [? |] eqn:E.

(** The store's answers for the values named in [H], which says that all
    are accepted. *)
Ltac accepted H :=
  repeat match type of H with
         | context [check_column ?c ?v] =>
             let E := fresh "Ecol" in
             destruct (check_column c v) as [[] | ?] eqn:E;
             cbn [andb] in H; [| discriminate H]
         end.

(** The store's answers for the values the goal writes. *)
Ltac judged :=
  repeat match goal with
         | |- context [check_column ?c ?v] =>
             lazymatch goal with
             | E : check_column c v = _ |- _ => rewrite E
             | _ => destruct (check_column c v) as [[] | ?] eqn:?
             end; cbn [bind except_Exception]
         end.

(** ** The rest of the API *)

(** [hello] *)
Definition hello (s : DB) : DB * response :=
  (s, {| body := JObj [("message", JStr "个人图书收藏管理系统 API");
                       ("status", JStr "运行正常")];
         status := 200 |}).

(** [BorrowRecord.to_dict]; [self.book] is the backref of
    [Book.borrow_records], the book whose key is the record's [BookID],
    loaded from the tables [s].  [BorrowDate] is never [None]. *)
Definition BorrowRecord_to_dict (s : DB) (self : BorrowRecord) : json :=
  JObj [ ("recordID", JNum (RecordID self));
         ("bookID", JNum (BR_BookID self));
         ("borrowerName", JStr (BorrowerName self));
         ("borrowDate", JStr (isoformat (BorrowDate self)));
         ("returnDate", match ReturnDate self with
                        | Some d => JStr (isoformat d)
                        | None => JNull
                        end);
         ("notes", match Notes self with Some n => JStr n | None => JNull end);
         ("book", match query_get s (BR_BookID self) with
                  | Some book => to_dict book
                  | None => JNull
                  end) ].

(** The routes that [app.route] registers. *)
Inductive request : Type :=
| GET_root
| GET_books
| GET_book (book_id : Z)
| POST_books (data : json)
| PUT_book (book_id : Z) (data : json)
| DELETE_book (book_id : Z)
| GET_search (keyword : option string)
| GET_stats_summary
| GET_stats_category.

(** One request, served at the instant [utcnow]. *)
Definition dispatch (s : DB) (utcnow : datetime) (req : request) : DB * response :=
  match req with
  | GET_root => hello s
  | GET_books => get_all_books s
  | GET_book book_id => get_book s book_id
  | POST_books data => add_book s utcnow data
  | PUT_book book_id data => update_book s book_id data
  | DELETE_book book_id => delete_book s book_id
  | GET_search keyword => search_books s keyword
  | GET_stats_summary => get_summary_stats s
  | GET_stats_category => get_category_stats s
  end.

(** The tables after a sequence of requests, each with its instant. *)
Fixpoint serve (s : DB) (requests : list (datetime * request)) : DB :=
  match requests with
  | [] => s
  | (utcnow, req) :: rest => serve (fst (dispatch s utcnow req)) rest
  end.

(** ** Invariants of the tables *)

(** A row as the API leaves it: a positive key below the identity
    counter, a creation date, and text columns the store accepts. *)
Definition row_wf (s : DB) (b : Book) : Prop :=
  (exists i, BookID b = Some i /\ 0 < i < next_BookID s)
  /\ CreateDate b <> None
  /\ check_columns b text_columns = Ok tt.

(** Well-formed tables: the keys are pairwise distinct, the counter is
    positive and every row is [row_wf]. *)
Definition wf (s : DB) : Prop :=
  0 < next_BookID s
  /\ NoDup (map BookID (Books s))
  /\ Forall (row_wf s) (Books s).

(** A row with a positive key below the identity counter and with a
    creation date. *)
Definition row_keyed (s : DB) (b : Book) : Prop :=
  (exists i, BookID b = Some i /\ 0 < i < next_BookID s)
  /\ CreateDate b <> None.

(** The keys of the table: pairwise distinct, each as [row_keyed] says. *)
Definition keys_wf (s : DB) : Prop :=
  0 < next_BookID s
  /\ NoDup (map BookID (Books s))
  /\ Forall (row_keyed s) (Books s).

(** The requests that can add a book. *)
Definition creates (req : request) : bool :=
  match req with
  | POST_books _ => true
  | _ => false
  end.

(** Every borrow record is of a book that is in [Books]. *)
Definition references_ok (s : DB) : Prop :=
  forall r, In r (BorrowRecords s) -> query_get s (BR_BookID r) <> None.

(** What an object under update keeps of the loaded [book]: key and
    creation date, and every column that was not assigned. *)
Definition keeps (book : Book) (t : tracked) : Prop :=
  BookID (object t) = BookID book
  /\ CreateDate (object t) = CreateDate book
  /\ forall name, In name text_columns ->
       In name (dirty t) \/ column (object t) name = column book name.

(** The status a created row gets: the supplied text, the column default
    when the request has no [status] or gives [null]. *)
Definition created_status (d : list (string * json)) : json :=
  match dict_get d "status" with
  | Some JNull | None => JStr "在架"
  | Some v => v
  end.

(** The row [POST /api/books] is to insert for the request object [d]. *)
Definition created_row (s : DB) (utcnow : datetime) (d : list (string * json))
  : Book :=
  {| BookID := Some (next_BookID s);
     ISBN := updated d "isbn" JNull;
     Title := updated d "title" JNull;
     Author := updated d "author" JNull;
     Publisher := updated d "publisher" JNull;
     Category := updated d "category" JNull;
     Status := created_status d;
     CreateDate := Some utcnow |}.

(** A setter keeps [keeps]: the assigned column becomes dirty, the others
    are as before. *)
Ltac setter_keeps :=
  intros book v t (Hid & Hdate & Hcols);
  split; [exact Hid | split; [exact Hdate |]];
  intros name Hin;
  assert (Hold := Hcols name Hin);
  cbn in Hin;
  repeat (destruct Hin as [<- | Hin];
          [first [ left; left; reflexivity
                 | destruct Hold as [Hold | Hold];
                   [left; right; exact Hold | right; exact Hold] ] |]);
  contradiction.

(** * Properties *)

(** ** The concrete states are what the handlers produce *)

Example seeded_ids : map BookID (Books seeded) = [Some 1; Some 2; Some 3].
Proof. reflexivity. Qed.

Example seeded_status :
  map Status (Books seeded) = [JStr "在架"; JStr "在架"; JStr "在架"].
Proof. reflexivity. Qed.

Example relabelled_status :
  map Status (Books relabelled) = [JStr "borrowed"; JStr "在架"; JStr "在架"].
Proof. reflexivity. Qed.

Example plain_and_blank_categories :
  map Category (Books plain_and_blank) = [JNull; JStr ""].
Proof. reflexivity. Qed.

Example get_book_seeded :
  field_of (snd (get_book seeded 3)) "title" = Some (JStr "百年孤独")
  /\ status (snd (get_book seeded 3)) = 200.
Proof. split; reflexivity. Qed.

Example delete_book_seeded :
  map BookID (Books (fst (delete_book seeded 2))) = [Some 1; Some 3]
  /\ status (snd (delete_book seeded 2)) = 200.
Proof. split; reflexivity. Qed.

(** ** Looking a book up by its key *)

Lemma find_In_some {A} (p : A -> bool) (l : list A) (x : A) :
  In x l -> p x = true -> exists y, find p l = Some y.
Proof.
  intros Hin Hp. destruct (find p l) as [y |] eqn:E.
  - now exists y.
  - rewrite (find_none p l E x Hin) in Hp. discriminate.
Qed.

Lemma get_or_404_absent (s : DB) (book_id : Z) :
  query_get s book_id = None -> get_or_404 s book_id = Raise NotFound.
Proof. intros H. unfold get_or_404. now rewrite H. Qed.

Lemma get_or_404_present (s : DB) (book_id : Z) (book : Book) :
  query_get s book_id = Some book -> get_or_404 s book_id = Ok book.
Proof. intros H. unfold get_or_404. now rewrite H. Qed.

Lemma query_get_has_id (s : DB) (book_id : Z) (book : Book) :
  query_get s book_id = Some book -> BookID book = Some book_id.
Proof.
  intros H. apply find_some in H. destruct H as [_ H].
  unfold has_id in H. destruct (BookID book) as [i |]; [| discriminate].
  apply Z.eqb_eq in H. now subst.
Qed.

(** ** Requests on an id that is not in [Books] *)

(** The [NotFound] that [get_or_404] raises is an [Exception]: the
    handler's own [except Exception] turns it into a 500. *)
Lemma absent_id_is_500 (s : DB) (book_id : Z) (data : json) :
  query_get s book_id = None ->
  let not_found := {| body := error_body (str NotFound); status := 500 |} in
  get_book s book_id = (s, not_found)
  /\ update_book s book_id data = (s, not_found)
  /\ delete_book s book_id = (s, not_found).
Proof.
  intros H. unfold get_book, update_book, delete_book.
  rewrite (get_or_404_absent _ _ H). cbn. repeat split.
Qed.

(** C1, at the seeded tables and id 99, which no book has: each of GET,
    PUT and DELETE on [/api/books/99] answers 500, with the text of the
    404 as its error message, and not 404. *)
Theorem absent_id_status_seeded :
  query_get seeded 99 = None
  /\ status (snd (get_book seeded 99)) = 500
  /\ status (snd (update_book seeded 99 (JObj [("title", JStr "X")]))) = 500
  /\ status (snd (delete_book seeded 99)) = 500
  /\ error_of (snd (get_book seeded 99)) = Some (str NotFound).
Proof. repeat split. Qed.

(** ** Deleting a book that is on loan *)

(** C3: when a book with the id exists and some borrow record of that id
    has no return date, [delete_book] answers 400 with its explanatory
    message and the tables are the ones it started from. *)
Theorem delete_book_on_loan (s : DB) (book_id : Z) (book : Book) (r : BorrowRecord) :
  In book (Books s) ->
  BookID book = Some book_id ->
  In r (BorrowRecords s) ->
  BR_BookID r = book_id ->
  ReturnDate r = None ->
  delete_book s book_id =
    (s, {| body := error_body "该图书有未归还的借阅记录，无法删除"; status := 400 |}).
Proof.
  intros Hb Hid Hr Hfk Hret.
  assert (Hfound : exists b, query_get s book_id = Some b).
  { apply find_In_some with (x := book); [assumption |].
    unfold has_id. rewrite Hid. apply Z.eqb_refl. }
  assert (Hloan : exists a, find (active_loan book_id) (BorrowRecords s) = Some a).
  { apply find_In_some with (x := r); [assumption |].
    unfold active_loan. rewrite Hfk, Hret, Z.eqb_refl. reflexivity. }
  destruct Hfound as [b Eb]. destruct Hloan as [a Ea].
  unfold delete_book. rewrite (get_or_404_present _ _ _ Eb). cbn.
  rewrite Ea. reflexivity.
Qed.

Lemma delete_book_on_loan_witness :
  delete_book on_loan 1 =
    (on_loan, {| body := error_body "该图书有未归还的借阅记录，无法删除";
                 status := 400 |}).
Proof.
  apply (delete_book_on_loan on_loan 1 seeded_1 loan_1).
  - left. reflexivity.
  - reflexivity.
  - left. reflexivity.
  - reflexivity.
  - reflexivity.
Defined.

(** ** Summary statistics *)

(** C6: the three numbers [get_summary_stats] answers with satisfy
    [totalBooks = borrowedBooks + availableBooks]. *)
Theorem summary_total_is_sum (s : DB) :
  exists total borrowed available,
    get_summary_stats s =
      (s, {| body := JObj [("totalBooks", JNum total);
                           ("borrowedBooks", JNum borrowed);
                           ("availableBooks", JNum available)];
             status := 200 |})
    /\ total = count (Books s)
    /\ total = borrowed + available.
Proof.
  do 3 eexists. split; [reflexivity |]. split; [reflexivity | lia].
Qed.

Lemma sql_eq_is_text (v : json) (label : string) :
  sql_eq v label = if is_text v label then true else false.
Proof.
  destruct (is_text v label) as [E | N].
  - rewrite E. cbn. apply String.eqb_refl.
  - destruct v as [| b | n | t | l | d]; try reflexivity.
    cbn. destruct (String.eqb_spec t label) as [E' | _]; [| reflexivity].
    exfalso. apply N. now rewrite E'.
Qed.

(** C7 as the specification words it fails on the label: after a PUT of
    [{"status": "borrowed"}] on book 1 there is one book whose status is
    exactly the text [borrowed], and [borrowedBooks] is 0. *)
Lemma borrowed_label_mismatch :
  with_status "borrowed" (Books relabelled) = 1
  /\ field_of (snd (get_summary_stats relabelled)) "borrowedBooks" = Some (JNum 0)
  /\ field_of (snd (get_summary_stats relabelled)) "borrowedBooks"
     <> Some (JNum (with_status "borrowed" (Books relabelled))).
Proof. repeat split. discriminate. Qed.

(** C7, amended: [borrowedBooks] is the number of books whose status is
    exactly the text ['借出'], the label the code compares with. *)
Theorem borrowedBooks_counts_label (s : DB) :
  field_of (snd (get_summary_stats s)) "borrowedBooks"
  = Some (JNum (with_status "借出" (Books s))).
Proof.
  cbn. unfold with_status, count. do 4 f_equal.
  apply filter_ext. intros b. apply sql_eq_is_text.
Qed.

(** ** Creating a book *)

Lemma lacks_get (d : list (string * json)) (field : string) :
  negb (truthy (match dict_get d field with Some v => v | None => JNull end))
  = lacks (JObj d) field.
Proof. cbn. now destruct (dict_get d field). Qed.

(** The loop over the required fields stops at the first field the body
    lacks. *)
Lemma first_missing_find (d : list (string * json)) (fields : list string) :
  first_missing (JObj d) fields = Ok (find (lacks (JObj d)) fields).
Proof.
  induction fields as [| f fields IH]; [reflexivity |].
  cbn [first_missing find py_get bind]. rewrite lacks_get.
  destruct (lacks (JObj d) f); [reflexivity | exact IH].
Qed.

Lemma find_first {A} (p : A -> bool) (l : list A) (x : A) :
  find p l = Some x ->
  exists before after,
    l = (before ++ x :: after)%list /\ p x = true /\ forall y, In y before -> p y = false.
Proof.
  induction l as [| a l IH]; [discriminate |].
  cbn. destruct (p a) eqn:Ea; intros H.
  - inversion H; subst. exists [], l. repeat split; [assumption | intros y []].
  - destruct (IH H) as (before & after & -> & Hx & Hb).
    exists (a :: before), after. repeat split; [assumption |].
    intros y [<- | Hy]; [assumption | now apply Hb].
Qed.

Lemma names_required (field : string) :
  In field required_fields ->
  names ("字段 '" ++ field ++ "' 是必需的") field = true.
Proof.
  intros [<- | [<- | [<- | []]]]; reflexivity.
Qed.

(** C2 as the specification words it fails on the empty object: the body
    [{}] lacks [isbn], it is refused with 400 and nothing is inserted, but
    the message is the general ['没有提供数据'], which names no field. *)
Lemma empty_object_names_no_field :
  lacks (JObj []) "isbn" = true
  /\ add_book created "2024-03-01T00:00:00" (JObj [])
     = (created, {| body := error_body "没有提供数据"; status := 400 |})
  /\ names "没有提供数据" "isbn" = false
  /\ ~ rejects_naming created "2024-03-01T00:00:00" (JObj []) "isbn".
Proof.
  repeat split. intros H. destruct (H eq_refl) as (_ & (msg & Hmsg & Hn) & _).
  cbn in Hmsg. inversion Hmsg; subst. discriminate.
Qed.

(** C2, amended: a body that is a JSON object and lacks, or gives a falsy
    value for, one of [isbn], [title], [author] is refused with 400 and
    the tables stay as they were; when the object is empty the message is
    the general ['没有提供数据'], otherwise it names the first of the three
    fields, in that order, that the body lacks. *)
Theorem add_book_missing_field (s : DB) (utcnow : datetime)
        (d : list (string * json)) (field : string) :
  In field required_fields ->
  lacks (JObj d) field = true ->
  exists msg,
    add_book s utcnow (JObj d)
    = (s, {| body := error_body msg; status := 400 |})
    /\ (d = [] -> msg = "没有提供数据")
    /\ (d <> [] ->
        exists before first after,
          required_fields = (before ++ first :: after)%list
          /\ lacks (JObj d) first = true
          /\ (forall earlier, In earlier before -> lacks (JObj d) earlier = false)
          /\ msg = "字段 '" ++ first ++ "' 是必需的"
          /\ names msg first = true).
Proof.
  intros Hin Hlacks. destruct d as [| kv d'].
  - exists "没有提供数据". repeat split. intros H. now contradiction H.
  - set (d := kv :: d') in *.
    destruct (find_In_some (lacks (JObj d)) required_fields field Hin Hlacks)
      as [first Hfirst].
    exists ("字段 '" ++ first ++ "' 是必需的"). split; [| split].
    + unfold add_book. change (truthy (JObj d)) with true. cbn [negb].
      rewrite first_missing_find, Hfirst. reflexivity.
    + intros H. discriminate H.
    + intros _. destruct (find_first _ _ _ Hfirst) as (before & after & E & Hl & Hb).
      exists before, first, after. repeat split; try assumption.
      apply names_required. rewrite E. apply in_elt.
Qed.

Lemma add_book_missing_field_witness :
  exists msg,
    add_book seeded "2024-03-01T00:00:00"
             (JObj [("isbn", JStr "111"); ("title", JStr "")])
    = (seeded, {| body := error_body msg; status := 400 |})
    /\ msg = "字段 'title' 是必需的".
Proof.
  destruct (add_book_missing_field seeded "2024-03-01T00:00:00"
              [("isbn", JStr "111"); ("title", JStr "")] "author")
    as (msg & Hrun & _ & Hmsg).
  - right. right. left. reflexivity.
  - reflexivity.
  - exists msg. split; [exact Hrun |].
    cbn in Hrun. inversion Hrun. reflexivity.
Defined.

Lemma not_lacking (d : list (string * json)) (field : string) :
  lacks (JObj d) field = false ->
  exists v, dict_get d field = Some v /\ truthy v = true.
Proof.
  cbn. destruct (dict_get d field) as [v |]; [| discriminate].
  intros H. exists v. split; [reflexivity |]. now destruct (truthy v).
Qed.

(** A body that is neither empty nor a JSON object has no [get]: the
    loop raises and the handler answers 500. *)
Example add_book_array_body :
  add_book seeded "2024-03-01T00:00:00" (JArr [JStr "isbn"])
  = (seeded, {| body := error_body "'list' object has no attribute 'get'";
                status := 500 |}).
Proof. reflexivity. Qed.

(** C8 as the specification words it fails on the label: the book created
    from a body without [status] has the status ['在架'], not the text
    [on-shelf]. *)
Lemma default_status_is_not_on_shelf :
  lacks minimal_body "isbn" = false
  /\ lacks minimal_body "title" = false
  /\ lacks minimal_body "author" = false
  /\ field_of (snd (add_book created "2024-03-01T00:00:00" minimal_body)) "status"
     = Some (JStr "在架")
  /\ map Status (Books (fst (add_book created "2024-03-01T00:00:00" minimal_body)))
     = [JStr "在架"]
  /\ field_of (snd (add_book created "2024-03-01T00:00:00" minimal_body)) "status"
     <> Some (JStr "on-shelf").
Proof. repeat split. discriminate. Qed.

(** C8, amended: when the body is an object that lacks none of the
    required fields and has no [status] key, either the store accepts the
    row, and then the answer is 201, one row is appended, the answer is
    that row and its status is the text ['在架']; or the store refuses the
    row, and then the answer is 500 and the tables stay as they were. *)
Theorem add_book_default_status (s : DB) (utcnow : datetime)
        (d : list (string * json)) :
  (forall field, In field required_fields -> lacks (JObj d) field = false) ->
  dict_get d "status" = None ->
  (exists row,
      add_book s utcnow (JObj d)
      = ({| Books := Books s ++ [row];
            BorrowRecords := BorrowRecords s;
            next_BookID := next_BookID s + 1 |},
         {| body := to_dict row; status := 201 |})
      /\ Status row = JStr "在架"
      /\ field_of {| body := to_dict row; status := 201 |} "status"
         = Some (JStr "在架"))
  \/ (exists msg,
         add_book s utcnow (JObj d)
         = (s, {| body := error_body msg; status := 500 |})).
Proof.
  intros Hreq Hstatus.
  destruct (not_lacking d "isbn") as (isbn & Eisbn & _);
    [apply Hreq; cbn; tauto |].
  destruct (not_lacking d "title") as (title & Etitle & _);
    [apply Hreq; cbn; tauto |].
  destruct (not_lacking d "author") as (author & Eauthor & _);
    [apply Hreq; cbn; tauto |].
  assert (Hfind : find (lacks (JObj d)) required_fields = None).
  { cbn [find required_fields].
    rewrite !Hreq by (cbn; tauto). reflexivity. }
  assert (Htruthy : truthy (JObj d) = true).
  { destruct d; [discriminate Eisbn | reflexivity]. }
  unfold add_book. rewrite Htruthy. cbn [negb].
  rewrite first_missing_find, Hfind.
  cbn [bind py_getitem py_get py_get_default].
  rewrite Eisbn, Etitle, Eauthor, Hstatus. cbn [bind].
  unfold session_add_commit. cbn [ISBN Title Author Publisher Category Status].
  match goal with
  | |- context [check_columns ?r text_columns] =>
      destruct (check_columns r text_columns) as [[] | e]; cbn;
      [left; exists r; repeat split | right; exists (str e); reflexivity]
  end.
Qed.

Lemma add_book_default_status_witness :
  exists row,
    add_book created "2024-03-01T00:00:00" minimal_body
    = ({| Books := [row]; BorrowRecords := []; next_BookID := 2 |},
       {| body := to_dict row; status := 201 |})
    /\ Status row = JStr "在架".
Proof.
  destruct (add_book_default_status created "2024-03-01T00:00:00"
              [("isbn", JStr "111"); ("title", JStr "A"); ("author", JStr "B")])
    as [(row & Hrun & Hrow & _) | (msg & Hfail)].
  - intros field [<- | [<- | [<- | []]]]; reflexivity.
  - reflexivity.
  - exists row. split; [exact Hrun | exact Hrow].
  - discriminate Hfail.
Defined.

(** ** Category statistics *)

Lemma same_group_eq (x y : json) : same_group x y = true -> x = y.
Proof.
  destruct x, y; cbn; try discriminate; [reflexivity |].
  intros H. apply String.eqb_eq in H. now subst.
Qed.

Lemma same_group_sym (x y : json) : same_group x y = same_group y x.
Proof. destruct x, y; cbn; try reflexivity. apply String.eqb_sym. Qed.

Lemma sum_counts_add (k : json) (groups : list (json * Z)) :
  sum_counts (add_to_group k groups) = sum_counts groups + 1.
Proof.
  induction groups as [| [k' n] rest IH]; cbn; [lia |].
  destruct (same_group k k'); cbn; lia.
Qed.

Lemma sum_counts_fold (rows : list Book) (groups : list (json * Z)) :
  sum_counts (fold_left (fun g b => add_to_group (Category b) g) rows groups)
  = sum_counts groups + count rows.
Proof.
  unfold count. revert groups.
  induction rows as [| b rows IH]; intros groups; cbn [fold_left List.length].
  - cbn. lia.
  - rewrite IH, sum_counts_add. lia.
Qed.

Lemma sum_counts_relabel (f : json -> json) (groups : list (json * Z)) :
  sum_counts (map (fun row => (f (fst row), snd row)) groups) = sum_counts groups.
Proof.
  induction groups as [| [k n] rest IH]; cbn; [reflexivity | now rewrite IH].
Qed.

Lemma group_count_add (v k : json) (groups : list (json * Z)) :
  group_count v (add_to_group k groups)
  = group_count v groups + (if same_group v k then 1 else 0).
Proof.
  unfold group_count.
  induction groups as [| [k' n] rest IH]; cbn [add_to_group find fst snd].
  - destruct (same_group v k); reflexivity.
  - destruct (same_group k k') eqn:Ek; cbn [find fst snd].
    + apply same_group_eq in Ek. subst k'.
      destruct (same_group v k); cbn [snd]; lia.
    + destruct (same_group v k') eqn:Ev; [| exact IH].
      apply same_group_eq in Ev. subst k'.
      rewrite same_group_sym, Ek. cbn [snd]. lia.
Qed.

Lemma group_count_fold (v : json) (rows : list Book) (groups : list (json * Z)) :
  group_count v (fold_left (fun g b => add_to_group (Category b) g) rows groups)
  = group_count v groups + with_category v rows.
Proof.
  unfold with_category. revert groups.
  induction rows as [| b rows IH]; intros groups; cbn [fold_left filter].
  - cbn. lia.
  - rewrite IH, group_count_add.
    destruct (same_group v (Category b)); cbn [List.length]; lia.
Qed.

Lemma group_count_In (v : json) (groups : list (json * Z)) :
  group_count v groups <> 0 -> In (v, group_count v groups) groups.
Proof.
  unfold group_count.
  destruct (find (fun e => same_group v (fst e)) groups) as [[k n] |] eqn:E;
    [| intros H; now contradiction H].
  intros _. apply find_some in E. destruct E as [Hin Hk].
  apply same_group_eq in Hk. cbn in Hk. subst k. exact Hin.
Qed.

Lemma with_category_pos (v : json) (rows : list Book) (b : Book) :
  In b rows -> same_group v (Category b) = true -> 1 <= with_category v rows.
Proof.
  intros Hin Hv. unfold with_category.
  assert (H : In b (filter (fun b => same_group v (Category b)) rows))
    by (apply filter_In; now split).
  destruct (filter (fun b => same_group v (Category b)) rows);
    [contradiction H | cbn [List.length]; lia].
Qed.

(** A row whose category is the value [v] (NULL or a text) is counted in
    one group of the query, whose count is the number of such rows; the
    entry of [stats] at the same position carries that count under the
    label [v or '未分类']. *)
Lemma category_bucket (s : DB) (b : Book) (v : json) :
  In b (Books s) -> Category b = v -> same_group v v = true ->
  exists i n,
    nth_error (group_by_Category (Books s)) i = Some (v, n)
    /\ nth_error (category_stats s) i = Some (py_or v (JStr "未分类"), n)
    /\ n = with_category v (Books s)
    /\ 1 <= n.
Proof.
  intros Hin Hcat Hv.
  assert (Hpos : 1 <= with_category v (Books s)).
  { apply with_category_pos with (b := b); [assumption | now rewrite Hcat]. }
  assert (Hcount : group_count v (group_by_Category (Books s))
                   = with_category v (Books s)).
  { unfold group_by_Category. rewrite group_count_fold. cbn. lia. }
  destruct (In_nth_error (group_by_Category (Books s))
              (v, with_category v (Books s))) as [i Hi].
  { rewrite <- Hcount. apply group_count_In. lia. }
  exists i, (with_category v (Books s)). repeat split; try assumption.
  unfold category_stats.
  rewrite nth_error_map, Hi. reflexivity.
Qed.

(** C9 as the specification words it fails on the label: with one book
    that has no category, the statistics are the single entry
    [('未分类', 1)], and no entry is labelled [uncategorized]. *)
Lemma no_uncategorized_label :
  map Category (Books one_plain) = [JNull]
  /\ category_stats one_plain = [(JStr "未分类", 1)]
  /\ ~ exists n, In (JStr "uncategorized", n) (category_stats one_plain).
Proof.
  repeat split. intros [n [H | []]]. discriminate H.
Qed.

(** C9, amended: the counts of the category statistics sum to
    [totalBooks], and every book whose category is NULL is counted in an
    entry labelled ['未分类'], whose count is the number of such books. *)
Theorem category_counts_sum_and_null_label (s : DB) :
  sum_counts (category_stats s) = count (Books s)
  /\ field_of (snd (get_summary_stats s)) "totalBooks"
     = Some (JNum (sum_counts (category_stats s)))
  /\ forall b, In b (Books s) -> Category b = JNull ->
       exists i n,
         nth_error (group_by_Category (Books s)) i = Some (JNull, n)
         /\ nth_error (category_stats s) i = Some (JStr "未分类", n)
         /\ n = with_category JNull (Books s)
         /\ 1 <= n.
Proof.
  assert (Hsum : sum_counts (category_stats s) = count (Books s)).
  { unfold category_stats, group_by_Category.
    rewrite sum_counts_relabel with (f := fun k => py_or k (JStr "未分类")).
    rewrite sum_counts_fold. cbn. lia. }
  split; [exact Hsum |]. split.
  - rewrite Hsum. reflexivity.
  - intros b Hin Hcat.
    apply (category_bucket s b JNull Hin Hcat eq_refl).
Qed.

Lemma category_counts_sum_and_null_label_witness :
  sum_counts (category_stats plain_and_blank) = 2
  /\ exists i n,
       nth_error (category_stats plain_and_blank) i = Some (JStr "未分类", n)
       /\ n = with_category JNull (Books plain_and_blank).
Proof.
  destruct (category_counts_sum_and_null_label plain_and_blank)
    as (Hsum & _ & Hnull).
  split; [exact Hsum |].
  destruct (Hnull (hd seeded_1 (Books plain_and_blank)))
    as (i & n & _ & Hi & Hn & _).
  - left. reflexivity.
  - reflexivity.
  - exists i, n. split; [exact Hi | exact Hn].
Defined.

(** C10 as worded fails on "the same bucket": with one book without a
    category and one whose category is the empty text, the query yields
    two groups, so the statistics hold two entries, both labelled
    ['未分类'] and each counting one book. *)
Lemma blank_and_null_are_two_entries :
  map Category (Books plain_and_blank) = [JNull; JStr ""]
  /\ category_stats plain_and_blank = [(JStr "未分类", 1); (JStr "未分类", 1)]
  /\ bucket_index JNull (group_by_Category (Books plain_and_blank)) = Some 0%nat
  /\ bucket_index (JStr "") (group_by_Category (Books plain_and_blank)) = Some 1%nat
  /\ ~ blank_joins_null plain_and_blank.
Proof. repeat split. discriminate. Qed.

(** C10, amended: no entry of the category statistics is labelled with
    the empty text, and every book whose category is the empty text is
    counted in an entry labelled ['未分类'], the label the books without a
    category get; that entry comes from the group of the empty text and
    its count is the number of books with the empty text. *)
Theorem blank_category_relabelled (s : DB) :
  (forall label n, In (label, n) (category_stats s) -> label <> JStr "")
  /\ forall b, In b (Books s) -> Category b = JStr "" ->
       exists i n,
         nth_error (group_by_Category (Books s)) i = Some (JStr "", n)
         /\ nth_error (category_stats s) i = Some (JStr "未分类", n)
         /\ n = with_category (JStr "") (Books s)
         /\ 1 <= n.
Proof.
  split.
  - intros label n Hin. unfold category_stats in Hin.
    apply in_map_iff in Hin. destruct Hin as ([k m] & E & _).
    cbn in E. inversion E as [[Hl Hn]]. unfold py_or.
    destruct (truthy k) eqn:Ek.
    + intros ->. discriminate Ek.
    + discriminate.
  - intros b Hin Hcat.
    apply (category_bucket s b (JStr "") Hin Hcat eq_refl).
Qed.

Lemma blank_category_relabelled_witness :
  exists i n,
    nth_error (group_by_Category (Books plain_and_blank)) i = Some (JStr "", n)
    /\ nth_error (category_stats plain_and_blank) i = Some (JStr "未分类", n).
Proof.
  destruct (blank_category_relabelled plain_and_blank) as [_ Hblank].
  destruct (Hblank (last (Books plain_and_blank) seeded_1))
    as (i & n & Hg & Hi & _).
  - right. left. reflexivity.
  - reflexivity.
  - exists i, n. split; [exact Hg | exact Hi].
Defined.

(** ** Searching *)

Lemma prefix_spec (kw s : string) :
  prefix kw s = true <-> exists after, s = kw ++ after.
Proof.
  revert s. induction kw as [| c kw IH]; intros s.
  - split; [intros _; now exists s | intros _; now destruct s].
  - destruct s as [| d s]; cbn;
      [split; [discriminate | intros [after H]; discriminate H] |].
    destruct (ascii_dec c d) as [-> | N].
    + rewrite IH. split; intros [after H]; exists after.
      * now rewrite H.
      * now inversion H.
    + split; [discriminate |]. intros [after H]. cbn in H. congruence.
Qed.

(** [contains] decides the occurrence of [kw] in [s]. *)
Lemma contains_spec (kw s : string) :
  contains kw s = true <-> substring_of kw s.
Proof.
  unfold substring_of. induction s as [| d s IH]; cbn [contains].
  - rewrite orb_false_r, prefix_spec. split.
    + intros [after H]. now exists "", after.
    + intros (before & after & H). destruct before; [now exists after |].
      discriminate H.
  - rewrite orb_true_iff, prefix_spec, IH. split.
    + intros [[after H] | (before & after & H)].
      * now exists "", after.
      * exists (String d before), after. cbn. now rewrite H.
    + intros (before & after & H). destruct before as [| e before].
      * left. now exists after.
      * right. exists before, after. now inversion H.
Qed.





Lemma text_matches_spec (kw : string) (v : json) :
  text_matches kw v = true
  <-> exists t, v = JStr t /\ substring_of (lower kw) (lower t).
Proof.
  destruct v as [| b | n | t | l | d]; cbn;
    try (split; [discriminate | intros (t' & H & _); discriminate H]).
  rewrite contains_spec. split.
  - intros H. now exists t.
  - intros (t' & H & Hsub). now inversion H.
Qed.


(** [LIKE] on the seeded titles and authors: the case of an ASCII letter
    does not count, and [_] stands for one character, whatever the number
    of its bytes. *)
Example like_ignores_ascii_case :
  like "%java%" "Java编程思想" = true /\ contains "java" "Java编程思想" = false.
Proof. split; reflexivity. Qed.

Example like_underscore_is_one_character :
  like "张_" "张三" = true
  /\ like "__" "张三" = true
  /\ like "___" "张三" = false
  /\ like "%__%" "三" = false.
Proof. repeat split. Qed.




(** ** Updating a book *)

Lemma has_id_eq (i j : Z) (b : Book) :
  BookID b = Some i -> has_id j b = (i =? j).
Proof. intros H. unfold has_id. now rewrite H. Qed.

Lemma has_id_unique (i j : Z) (b : Book) :
  has_id i b = true -> i <> j -> has_id j b = false.
Proof.
  unfold has_id. destruct (BookID b) as [k |]; [| reflexivity].
  intros H N. apply Z.eqb_eq in H. apply Z.eqb_neq. congruence.
Qed.

(** After the UPDATE the key finds the written object. *)
Lemma find_replace_row (i : Z) (book' : Book) (rows : list Book) (old : Book) :
  BookID book' = Some i ->
  find (has_id i) rows = Some old ->
  find (has_id i) (replace_row book' rows) = Some book'.
Proof.
  intros Hid. unfold replace_row. rewrite Hid.
  induction rows as [| r rows IH]; [discriminate |].
  cbn [find map]. destruct (has_id i r) eqn:Er.
  - intros _. now rewrite (has_id_eq i i _ Hid), Z.eqb_refl.
  - rewrite Er. exact IH.
Qed.

(** The UPDATE leaves what every other key finds as it was. *)
Lemma find_replace_row_other (i j : Z) (book' : Book) (rows : list Book) :
  BookID book' = Some i -> i <> j ->
  find (has_id j) (replace_row book' rows) = find (has_id j) rows.
Proof.
  intros Hid N. unfold replace_row. rewrite Hid.
  induction rows as [| r rows IH]; [reflexivity |].
  cbn [find map]. destruct (has_id i r) eqn:Er.
  - rewrite (has_id_eq i j _ Hid), (has_id_unique i j r Er N).
    apply Z.eqb_neq in N. rewrite N. exact IH.
  - destruct (has_id j r); [reflexivity | exact IH].
Qed.

(** What [update_book] answers for an existing book and a request object
    whose values the columns accept. *)
Lemma update_book_accepted (s : DB) (book_id : Z) (book : Book)
      (d : list (string * json)) :
  query_get s book_id = Some book ->
  acceptable d = true ->
  update_book s book_id (JObj d)
  = ({| Books := replace_row (sparse_update d book) (Books s);
        BorrowRecords := BorrowRecords s;
        next_BookID := next_BookID s |},
     {| body := to_dict (sparse_update d book); status := 200 |}).
Proof.
  intros Hget Hacc.
  unfold update_book. rewrite (get_or_404_present _ _ _ Hget).
  clear Hget. destruct book as [id isbn title author publisher category st created_at].
  unfold acceptable in Hacc. cbn [forallb update_fields fst snd] in Hacc.
  unfold assign_if_present, sparse_update, updated, session_commit.
  cbn [bind py_in py_getitem].
  supplied d "isbn" E1; supplied d "title" E2; supplied d "author" E3;
    supplied d "publisher" E4; supplied d "category" E5; supplied d "status" E6;
    accepted Hacc; cbn; rewrite ?Ecol, ?Ecol0, ?Ecol1, ?Ecol2, ?Ecol3, ?Ecol4;
    reflexivity.
Qed.

(** A request object with a value that its column refuses is answered
    with 500 and changes nothing. *)
Lemma update_book_refused (s : DB) (book_id : Z) (book : Book)
      (d : list (string * json)) :
  query_get s book_id = Some book ->
  acceptable d = false ->
  exists msg,
    update_book s book_id (JObj d)
    = (s, {| body := error_body msg; status := 500 |}).
Proof.
  intros Hget Hacc.
  unfold update_book. rewrite (get_or_404_present _ _ _ Hget).
  clear Hget. destruct book as [id isbn title author publisher category st created_at].
  unfold acceptable in Hacc. cbn [forallb update_fields fst snd] in Hacc.
  unfold assign_if_present, session_commit, rollback.
  cbn [bind py_in py_getitem].
  supplied d "isbn" E1; supplied d "title" E2; supplied d "author" E3;
    supplied d "publisher" E4; supplied d "category" E5; supplied d "status" E6;
    cbn; judged;
    solve [ eexists; reflexivity
          | exfalso; repeat match goal with
                            | E : check_column _ _ = _ |- _ =>
                                rewrite E in Hacc
                            end; discriminate Hacc ].
Qed.

(** C4 as the specification words it fails for a value that a column
    refuses: [PUT /api/books/1] with [{"title": null}] presents the field
    [title], the store refuses NULL for that column, the answer is 500
    and the stored title is the old one. *)
Lemma null_title_is_not_taken :
  status (snd (update_book seeded 1 (JObj [("title", JNull)]))) = 500
  /\ error_of (snd (update_book seeded 1 (JObj [("title", JNull)])))
     = Some "Cannot insert the value NULL into column 'Title'"
  /\ option_map Title
       (query_get (fst (update_book seeded 1 (JObj [("title", JNull)]))) 1)
     = Some (JStr "软件工程")
  /\ ~ takes_supplied_values seeded 1 [("title", JNull)].
Proof.
  repeat split. intros H.
  destruct (H "title" "Title" JNull) as (book' & Hget & Hcol).
  - right. left. reflexivity.
  - reflexivity.
  - cbn in Hget. inversion Hget; subst. discriminate Hcol.
Qed.

(** C4, amended: for an existing book and a request object in which
    every supplied value is one its column accepts (a text within the
    declared length, or null for [publisher], [category], [status]), the
    answer is 200 with the updated book, the book stored under the id
    has the supplied value in each field the request presents and its
    old value in every other field, key and creation date included, and
    what every other id finds is as before. *)
Theorem update_book_sparse (s : DB) (book_id : Z) (book : Book)
        (d : list (string * json)) :
  query_get s book_id = Some book ->
  acceptable d = true ->
  status (snd (update_book s book_id (JObj d))) = 200
  /\ body (snd (update_book s book_id (JObj d))) = to_dict (sparse_update d book)
  /\ query_get (fst (update_book s book_id (JObj d))) book_id
     = Some (sparse_update d book)
  /\ (forall key col, In (key, col) update_fields ->
        column (sparse_update d book) col
        = match dict_get d key with
          | Some v => v
          | None => column book col
          end)
  /\ BookID (sparse_update d book) = BookID book
  /\ CreateDate (sparse_update d book) = CreateDate book
  /\ (forall other, other <> book_id ->
        query_get (fst (update_book s book_id (JObj d))) other
        = query_get s other)
  /\ BorrowRecords (fst (update_book s book_id (JObj d))) = BorrowRecords s.
Proof.
  intros Hget Hacc.
  rewrite (update_book_accepted s book_id book d Hget Hacc). cbn [fst snd status body].
  assert (Hid : BookID (sparse_update d book) = Some book_id)
    by exact (query_get_has_id s book_id book Hget).
  repeat split.
  - unfold query_get. cbn [Books].
    exact (find_replace_row book_id _ (Books s) book Hid Hget).
  - intros key col Hin. cbn in Hin.
    repeat (destruct Hin as [Hin | Hin];
            [inversion Hin; subst; reflexivity |]).
    contradiction.
  - intros other N. unfold query_get. cbn [Books].
    apply find_replace_row_other with (i := book_id); [exact Hid | congruence].
Qed.

Lemma update_book_sparse_witness :
  status (snd (update_book seeded 2
                 (JObj [("status", JStr "借出"); ("publisher", JNull)]))) = 200
  /\ option_map to_dict
       (query_get (fst (update_book seeded 2
                          (JObj [("status", JStr "借出"); ("publisher", JNull)]))) 2)
     = Some (JObj [ ("bookID", JNum 2);
                    ("isbn", JStr "9787121361972");
                    ("title", JStr "Java编程思想");
                    ("author", JStr "李四");
                    ("publisher", JNull);
                    ("category", JStr "计算机");
                    ("status", JStr "借出");
                    ("createDate", JStr "2024-01-01T00:00:00") ]).
Proof.
  destruct (update_book_sparse seeded 2 (nth 1 (Books seeded) seeded_1)
              [("status", JStr "借出"); ("publisher", JNull)])
    as (Hstatus & _ & Hstored & _).
  - reflexivity.
  - reflexivity.
  - split; [exact Hstatus |]. rewrite Hstored. reflexivity.
Defined.

(** * Further properties of the handlers *)

(** ** The shape of what the writing handlers answer *)

Lemma check_columns_Ok (b : Book) (names : list string) :
  check_columns b names = Ok tt
  <-> forall name, In name names -> check_column name (column b name) = Ok tt.
Proof.
  induction names as [| a names IH]; cbn [check_columns In].
  - split; [intros _ name [] | reflexivity].
  - destruct (check_column a (column b a)) as [[] | e] eqn:E; cbn [bind].
    + rewrite IH. split.
      * intros H name [<- | Hin]; [exact E | now apply H].
      * intros H name Hin. apply H. now right.
    + split; [discriminate |]. intros H.
      specialize (H a (or_introl eq_refl)). rewrite E in H. discriminate H.
Qed.

(** [add_book] either answers 400 or 500 and leaves the tables, or
    appends one accepted row, keyed by the identity counter and dated
    [utcnow], and answers 201 with that row. *)
Lemma add_book_shape (s : DB) (utcnow : datetime) (data : json) :
  (exists msg code,
      add_book s utcnow data = (s, {| body := error_body msg; status := code |})
      /\ (code = 400 \/ code = 500))
  \/ (exists row,
         add_book s utcnow data
         = ({| Books := Books s ++ [row];
               BorrowRecords := BorrowRecords s;
               next_BookID := next_BookID s + 1 |},
            {| body := to_dict row; status := 201 |})
         /\ BookID row = Some (next_BookID s)
         /\ CreateDate row = Some utcnow
         /\ check_columns row text_columns = Ok tt).
Proof.
  unfold add_book, rollback.
  destruct (truthy data); cbn [negb]; [| left; do 2 eexists; split; [reflexivity | tauto]].
  destruct (first_missing data required_fields) as [[field |] | e];
    cbn [bind except_Exception];
    [left; do 2 eexists; split; [reflexivity | tauto] | |
     left; do 2 eexists; split; [reflexivity | tauto]].
  destruct (py_getitem data "isbn") as [isbn | e]; cbn [bind except_Exception];
    [| left; do 2 eexists; split; [reflexivity | tauto]].
  destruct (py_getitem data "title") as [title | e]; cbn [bind except_Exception];
    [| left; do 2 eexists; split; [reflexivity | tauto]].
  destruct (py_getitem data "author") as [author | e]; cbn [bind except_Exception];
    [| left; do 2 eexists; split; [reflexivity | tauto]].
  destruct (py_get data "publisher") as [publisher | e]; cbn [bind except_Exception];
    [| left; do 2 eexists; split; [reflexivity | tauto]].
  destruct (py_get data "category") as [category | e]; cbn [bind except_Exception];
    [| left; do 2 eexists; split; [reflexivity | tauto]].
  destruct (py_get_default data "status" (JStr "在架")) as [status_ | e];
    cbn [bind except_Exception];
    [| left; do 2 eexists; split; [reflexivity | tauto]].
  unfold session_add_commit.
  match goal with
  | |- context [check_columns ?r text_columns] =>
      destruct (check_columns r text_columns) as [[] | e] eqn:E;
      cbn [bind except_Exception fst snd];
      [right; exists r; repeat split; exact E
      | left; do 2 eexists; split; [reflexivity | tauto]]
  end.
Qed.

Lemma set_ISBN_keeps (book : Book) (v : json) (t : tracked) :
  keeps book t -> keeps book (set_ISBN v t).
Proof. revert book v t. setter_keeps. Qed.

Lemma set_Title_keeps (book : Book) (v : json) (t : tracked) :
  keeps book t -> keeps book (set_Title v t).
Proof. revert book v t. setter_keeps. Qed.

Lemma set_Author_keeps (book : Book) (v : json) (t : tracked) :
  keeps book t -> keeps book (set_Author v t).
Proof. revert book v t. setter_keeps. Qed.

Lemma set_Publisher_keeps (book : Book) (v : json) (t : tracked) :
  keeps book t -> keeps book (set_Publisher v t).
Proof. revert book v t. setter_keeps. Qed.

Lemma set_Category_keeps (book : Book) (v : json) (t : tracked) :
  keeps book t -> keeps book (set_Category v t).
Proof. revert book v t. setter_keeps. Qed.

Lemma set_Status_keeps (book : Book) (v : json) (t : tracked) :
  keeps book t -> keeps book (set_Status v t).
Proof. revert book v t. setter_keeps. Qed.

Lemma assign_keeps (book : Book) (data : json) (key : string)
      (set : json -> tracked -> tracked) (t t' : tracked) :
  (forall v t, keeps book t -> keeps book (set v t)) ->
  keeps book t ->
  assign_if_present data key set t = Ok t' ->
  keeps book t'.
Proof.
  intros Hset Ht. unfold assign_if_present.
  destruct (py_in key data) as [[|] | e]; cbn [bind]; try discriminate.
  - destruct (py_getitem data key) as [v | e]; cbn [bind]; [| discriminate].
    intros H. inversion H; subst. now apply Hset.
  - intros H. inversion H; subst. exact Ht.
Qed.

(** [update_book] either answers 500 and leaves the tables, or writes,
    in place of the rows of the id, an object that keeps of the loaded
    book all that was not assigned and whose assigned columns the store
    accepted, and answers 200 with that object. *)
Lemma update_book_shape (s : DB) (book_id : Z) (data : json) :
  (exists msg,
      update_book s book_id data
      = (s, {| body := error_body msg; status := 500 |}))
  \/ (exists book t,
         query_get s book_id = Some book
         /\ keeps book t
         /\ check_columns (object t) (dirty t) = Ok tt
         /\ update_book s book_id data
            = ({| Books := replace_row (object t) (Books s);
                  BorrowRecords := BorrowRecords s;
                  next_BookID := next_BookID s |},
               {| body := to_dict (object t); status := 200 |})).
Proof.
  unfold update_book, rollback, get_or_404.
  destruct (query_get s book_id) as [book |] eqn:Eget; cbn [bind except_Exception];
    [| left; eexists; reflexivity].
  assert (K0 : keeps book {| object := book; dirty := [] |})
    by (repeat split; intros; now right).
  destruct (assign_if_present data "isbn" set_ISBN _) as [t1 | e] eqn:E1;
    cbn [bind except_Exception]; [| left; eexists; reflexivity].
  assert (K1 := assign_keeps book data _ _ _ _ (set_ISBN_keeps book) K0 E1).
  destruct (assign_if_present data "title" set_Title _) as [t2 | e] eqn:E2;
    cbn [bind except_Exception]; [| left; eexists; reflexivity].
  assert (K2 := assign_keeps book data _ _ _ _ (set_Title_keeps book) K1 E2).
  destruct (assign_if_present data "author" set_Author _) as [t3 | e] eqn:E3;
    cbn [bind except_Exception]; [| left; eexists; reflexivity].
  assert (K3 := assign_keeps book data _ _ _ _ (set_Author_keeps book) K2 E3).
  destruct (assign_if_present data "publisher" set_Publisher _) as [t4 | e] eqn:E4;
    cbn [bind except_Exception]; [| left; eexists; reflexivity].
  assert (K4 := assign_keeps book data _ _ _ _ (set_Publisher_keeps book) K3 E4).
  destruct (assign_if_present data "category" set_Category _) as [t5 | e] eqn:E5;
    cbn [bind except_Exception]; [| left; eexists; reflexivity].
  assert (K5 := assign_keeps book data _ _ _ _ (set_Category_keeps book) K4 E5).
  destruct (assign_if_present data "status" set_Status _) as [t6 | e] eqn:E6;
    cbn [bind except_Exception]; [| left; eexists; reflexivity].
  assert (K6 := assign_keeps book data _ _ _ _ (set_Status_keeps book) K5 E6).
  unfold session_commit.
  destruct (check_columns (object t6) (dirty t6)) as [[] | e] eqn:Ec;
    cbn [bind except_Exception]; [| left; eexists; reflexivity].
  right. exists book, t6. repeat split; try assumption; apply K6.
Qed.

(** [delete_book] either answers 400 or 500 and leaves the tables, or
    finds the book without any borrow record, removes the rows of the id
    and answers 200. *)
Lemma delete_book_shape (s : DB) (book_id : Z) :
  (exists msg code,
      delete_book s book_id = (s, {| body := error_body msg; status := code |})
      /\ (code = 400 \/ code = 500))
  \/ (exists book,
         query_get s book_id = Some book
         /\ filter (fun r => BR_BookID r =? book_id) (BorrowRecords s) = []
         /\ delete_book s book_id
            = ({| Books := filter (fun b => negb (has_id book_id b)) (Books s);
                  BorrowRecords := BorrowRecords s;
                  next_BookID := next_BookID s |},
               {| body := JObj [("message", JStr "图书删除成功")];
                  status := 200 |})).
Proof.
  unfold delete_book, rollback, get_or_404.
  destruct (query_get s book_id) as [book |] eqn:Eget; cbn [bind except_Exception];
    [| left; do 2 eexists; split; [reflexivity | tauto]].
  destruct (find (active_loan book_id) (BorrowRecords s)) as [a |];
    [left; do 2 eexists; split; [reflexivity | tauto] |].
  unfold session_delete_commit.
  destruct (filter (fun r => BR_BookID r =? book_id) (BorrowRecords s)) as [| r rs];
    cbn [bind except_Exception].
  - right. exists book. repeat split.
  - left. do 2 eexists. split; [reflexivity | tauto].
Qed.

(** ** Keys and well-formed tables *)

Lemma has_id_true (i : Z) (b : Book) : has_id i b = true <-> BookID b = Some i.
Proof.
  unfold has_id. destruct (BookID b) as [k |]; [| split; discriminate].
  rewrite Z.eqb_eq. split; [now intros -> | now intros [= ->]].
Qed.

Lemma replace_row_ids (book' : Book) (rows : list Book) :
  map BookID (replace_row book' rows) = map BookID rows.
Proof.
  unfold replace_row. destruct (BookID book') as [i |] eqn:Hid.
  - induction rows as [| r rows IH]; [reflexivity |].
    cbn [map]. rewrite IH. destruct (has_id i r) eqn:Er; [| reflexivity].
    apply has_id_true in Er. now rewrite Hid, Er.
  - now rewrite map_map.
Qed.

(** Removing rows keeps the keys pairwise distinct. *)
Lemma distinct_keys_filter (keep : Book -> bool) (rows : list Book) :
  NoDup (map BookID rows) -> NoDup (map BookID (filter keep rows)).
Proof.
  induction rows as [| r rows IH]; cbn [map filter]; [trivial |].
  intros H. apply NoDup_cons_iff in H. destruct H as [Hfresh Hrows].
  destruct (keep r); [| now apply IH].
  cbn [map]. apply NoDup_cons; [| now apply IH].
  intros Hin. apply Hfresh. apply in_map_iff in Hin.
  destruct Hin as (x & Hx & Hin). apply filter_In in Hin.
  apply in_map_iff. exists x. tauto.
Qed.

Lemma query_get_wf (s : DB) (book_id : Z) (book : Book) :
  wf s -> query_get s book_id = Some book ->
  row_wf s book /\ 0 < book_id < next_BookID s.
Proof.
  intros (_ & _ & Hrows) Hget.
  assert (Hid := query_get_has_id s book_id book Hget).
  apply find_some in Hget. destruct Hget as [Hin _].
  rewrite Forall_forall in Hrows. specialize (Hrows book Hin).
  split; [exact Hrows |].
  destruct Hrows as ((i & Hi & Hr) & _). congruence.
Qed.

(** No row of well-formed tables has the key the counter holds. *)
Lemma counter_is_fresh (s : DB) (i : Z) :
  wf s -> next_BookID s <= i -> query_get s i = None.
Proof.
  intros Hwf Hle. destruct (query_get s i) as [book |] eqn:E; [| reflexivity].
  destruct (query_get_wf s i book Hwf E) as [_ H]. lia.
Qed.

Lemma wf_keys (s : DB) : wf s -> keys_wf s.
Proof.
  intros (Hpos & Hnd & Hrows). repeat split; try assumption.
  eapply Forall_impl; [| exact Hrows]. intros b (Hid & Hdate & _). now split.
Qed.

Lemma row_keyed_counter (s s' : DB) (b : Book) :
  next_BookID s <= next_BookID s' -> row_keyed s b -> row_keyed s' b.
Proof.
  intros Hle ((i & Hi & Hr) & Hd). split; [| assumption].
  exists i. split; [assumption | lia].
Qed.

Lemma keys_add (s : DB) (row : Book) :
  keys_wf s ->
  BookID row = Some (next_BookID s) ->
  CreateDate row <> None ->
  keys_wf {| Books := Books s ++ [row];
             BorrowRecords := BorrowRecords s;
             next_BookID := next_BookID s + 1 |}.
Proof.
  intros (Hpos & Hnd & Hrows) Hid Hdate.
  unfold keys_wf. cbn [Books next_BookID]. split; [lia |]. split.
  - rewrite map_app. apply NoDup_app; [assumption | repeat constructor; intros [] |].
    intros k Hk [<- | []]. cbn [map] in Hk. rewrite Hid in Hk.
    apply in_map_iff in Hk. destruct Hk as (b & Hb & Hin).
    rewrite Forall_forall in Hrows.
    destruct (Hrows b Hin) as ((i & Hi & Hr) & _). rewrite Hb in Hi.
    inversion Hi. lia.
  - apply Forall_app. split.
    + eapply Forall_impl; [| exact Hrows].
      intros b. apply row_keyed_counter. cbn. lia.
    + repeat constructor; try assumption.
      exists (next_BookID s). split; [assumption | cbn; lia].
Qed.

Lemma keys_update (s : DB) (book_id : Z) (book : Book) (t : tracked) :
  keys_wf s ->
  query_get s book_id = Some book ->
  keeps book t ->
  keys_wf {| Books := replace_row (object t) (Books s);
             BorrowRecords := BorrowRecords s;
             next_BookID := next_BookID s |}.
Proof.
  intros (Hpos & Hnd & Hrows) Hget (Kid & Kdate & _).
  assert (Hbook : row_keyed s book).
  { apply find_some in Hget. destruct Hget as [Hin _].
    rewrite Forall_forall in Hrows. now apply Hrows. }
  assert (Hobj : row_keyed s (object t)).
  { destruct Hbook as [Hbid Hbdate]. split; [now rewrite Kid | now rewrite Kdate]. }
  unfold keys_wf. cbn [Books next_BookID]. split; [assumption |]. split.
  - now rewrite replace_row_ids.
  - unfold replace_row. apply Forall_map.
    eapply Forall_impl; [| exact Hrows]. intros r Hr.
    destruct (BookID (object t)); [| exact Hr].
    destruct (has_id z r); [exact Hobj | exact Hr].
Qed.

Lemma keys_delete (s : DB) (book_id : Z) :
  keys_wf s ->
  keys_wf {| Books := filter (fun b => negb (has_id book_id b)) (Books s);
             BorrowRecords := BorrowRecords s;
             next_BookID := next_BookID s |}.
Proof.
  intros (Hpos & Hnd & Hrows).
  unfold keys_wf. cbn [Books next_BookID]. split; [assumption |]. split.
  - now apply distinct_keys_filter.
  - rewrite Forall_forall in *. intros b Hin. apply filter_In in Hin.
    now apply Hrows.
Qed.

(** Each request keeps the keys as [keys_wf] says. *)
Lemma dispatch_keys (s : DB) (utcnow : datetime) (req : request) :
  keys_wf s -> keys_wf (fst (dispatch s utcnow req)).
Proof.
  intros Hwf. destruct req as [| | i | data | i data | i | kw | |];
    try exact Hwf.
  - cbn [dispatch]. unfold get_book.
    destruct (get_or_404 s i); exact Hwf.
  - cbn [dispatch].
    destruct (add_book_shape s utcnow data)
      as [(msg & code & -> & _) | (row & -> & Hid & Hdate & _)];
      [exact Hwf |].
    apply keys_add; try assumption. rewrite Hdate. discriminate.
  - cbn [dispatch].
    destruct (update_book_shape s i data)
      as [(msg & ->) | (book & t & Hget & K & _ & ->)]; [exact Hwf |].
    now apply keys_update with (book_id := i) (book := book).
  - cbn [dispatch].
    destruct (delete_book_shape s i)
      as [(msg & code & -> & _) | (book & _ & _ & ->)]; [exact Hwf |].
    now apply keys_delete.
Qed.

Lemma serve_keys (s : DB) (requests : list (datetime * request)) :
  keys_wf s -> keys_wf (serve s requests).
Proof.
  revert s. induction requests as [| [utcnow req] rest IH]; intros s Hwf;
    [exact Hwf |].
  cbn [serve]. apply IH. now apply dispatch_keys.
Qed.

(** The seeded tables are well-formed, whatever the instant. *)
Lemma init_database_wf (utcnow : datetime) : wf (init_database created utcnow).
Proof.
  unfold wf. cbn. split; [lia |]. split.
  - repeat constructor; cbn; intuition discriminate.
  - apply Forall_forall. intros b [<- | [<- | [<- | []]]];
      (split; [eexists; split; [reflexivity | cbn; lia]
              | split; [discriminate | reflexivity]]).
Qed.

Lemma find_app_some {A} (p : A -> bool) (l l' : list A) (x : A) :
  find p l = Some x -> find p (l ++ l') = Some x.
Proof.
  induction l as [| a l IH]; [discriminate |].
  cbn. destruct (p a); [trivial | exact IH].
Qed.

Lemma find_app_none {A} (p : A -> bool) (l l' : list A) :
  find p l = None -> find p (l ++ l') = find p l'.
Proof.
  induction l as [| a l IH]; [reflexivity |].
  cbn. destruct (p a); [discriminate | exact IH].
Qed.

Lemma find_filter_self (i : Z) (rows : list Book) :
  find (has_id i) (filter (fun b => negb (has_id i b)) rows) = None.
Proof.
  induction rows as [| r rows IH]; [reflexivity |].
  cbn [filter]. destruct (has_id i r) eqn:Er; cbn [negb find]; [exact IH |].
  now rewrite Er.
Qed.

Lemma find_filter_other (i j : Z) (rows : list Book) :
  i <> j ->
  find (has_id j) (filter (fun b => negb (has_id i b)) rows)
  = find (has_id j) rows.
Proof.
  intros N. induction rows as [| r rows IH]; [reflexivity |].
  cbn [filter find]. destruct (has_id i r) eqn:Er; cbn [negb find].
  - now rewrite (has_id_unique i j r Er N).
  - destruct (has_id j r); [reflexivity | exact IH].
Qed.

(** ** Invariants along any sequence of requests *)

(** Whatever requests are served, in whatever order, starting from
    tables whose keys are pairwise distinct, positive and below the
    identity counter and whose books have a creation date: the keys of
    the books stay pairwise distinct and positive, and every book keeps
    a creation date. *)
Theorem serve_keeps_keys (s : DB) (requests : list (datetime * request)) :
  keys_wf s ->
  NoDup (map BookID (Books (serve s requests)))
  /\ forall b, In b (Books (serve s requests)) ->
       (exists i, BookID b = Some i /\ 0 < i) /\ CreateDate b <> None.
Proof.
  intros Hwf. destruct (serve_keys s requests Hwf) as (_ & Hnd & Hrows).
  split; [exact Hnd |]. intros b Hb.
  rewrite Forall_forall in Hrows.
  destruct (Hrows b Hb) as ((i & Hi & Hr) & Hdate).
  split; [| exact Hdate]. exists i. split; [exact Hi | lia].
Qed.

Lemma serve_keeps_keys_witness :
  keys_wf seeded
  /\ NoDup (map BookID
              (Books (serve seeded
                        [ ("2024-03-01T00:00:00", POST_books minimal_body);
                          ("2024-03-02T00:00:00",
                           PUT_book 4 (JObj [("status", JStr "借出")]));
                          ("2024-03-03T00:00:00", DELETE_book 2);
                          ("2024-03-04T00:00:00",
                           PUT_book 1 (JObj [("title", JNull)])) ]))).
Proof.
  split; [exact (wf_keys _ (init_database_wf _)) |].
  apply (serve_keeps_keys seeded). exact (wf_keys _ (init_database_wf _)).
Defined.

(** A request that is answered with anything but 200 or 201 leaves both
    tables and the identity counter exactly as they were. *)
Theorem error_leaves_tables (s : DB) (utcnow : datetime) (req : request) :
  status (snd (dispatch s utcnow req)) <> 200 ->
  status (snd (dispatch s utcnow req)) <> 201 ->
  fst (dispatch s utcnow req) = s.
Proof.
  destruct req as [| | i | data | i data | i | kw | |]; cbn [dispatch];
    try reflexivity.
  - unfold get_book. now destruct (get_or_404 s i).
  - destruct (add_book_shape s utcnow data)
      as [(msg & code & -> & _) | (row & -> & _)]; [reflexivity |].
    cbn. intros _ H. now contradiction H.
  - destruct (update_book_shape s i data)
      as [(msg & ->) | (book & t & _ & _ & _ & ->)]; [reflexivity |].
    cbn. intros H. now contradiction H.
  - destruct (delete_book_shape s i)
      as [(msg & code & -> & _) | (book & _ & _ & ->)]; [reflexivity |].
    cbn. intros H. now contradiction H.
Qed.

Lemma error_leaves_tables_witness :
  status (snd (dispatch on_loan "2024-03-01T00:00:00" (DELETE_book 1))) = 400
  /\ fst (dispatch on_loan "2024-03-01T00:00:00" (DELETE_book 1)) = on_loan.
Proof.
  split; [reflexivity |].
  apply (error_leaves_tables on_loan "2024-03-01T00:00:00" (DELETE_book 1));
    discriminate.
Defined.

Lemma dispatch_creates_nothing (s : DB) (utcnow : datetime) (req : request)
      (i : Z) :
  creates req = false ->
  query_get s i = None ->
  query_get (fst (dispatch s utcnow req)) i = None.
Proof.
  intros Hreq Habs.
  destruct req as [| | j | data | j data | j | kw | |]; cbn [dispatch];
    try assumption; try discriminate Hreq.
  - unfold get_book. now destruct (get_or_404 s j).
  - destruct (update_book_shape s j data)
      as [(msg & ->) | (book & t & Hget & (Kid & _) & _ & ->)]; [assumption |].
    cbn [fst].
    assert (Hobj : BookID (object t) = Some j)
      by (rewrite Kid; exact (query_get_has_id s j book Hget)).
    unfold query_get in *. cbn [Books].
    rewrite (find_replace_row_other j i (object t) (Books s) Hobj); [assumption |].
    intros ->. congruence.
  - destruct (delete_book_shape s j)
      as [(msg & code & -> & _) | (book & _ & _ & ->)]; [assumption |].
    cbn [fst]. unfold query_get in *. cbn [Books].
    destruct (Z.eq_dec j i) as [-> | N].
    + apply find_filter_self.
    + now rewrite (find_filter_other j i (Books s) N).
Qed.

(** Only a POST creates a book: an id that no book has is the id of no
    book after any sequence of requests none of which is a POST; a PUT
    on an absent id, in particular, does not create the book. *)
Theorem only_post_creates (s : DB) (i : Z)
        (requests : list (datetime * request)) :
  query_get s i = None ->
  Forall (fun r => creates (snd r) = false) requests ->
  query_get (serve s requests) i = None.
Proof.
  revert s. induction requests as [| [utcnow req] rest IH]; intros s Habs Hreqs;
    [exact Habs |].
  apply Forall_cons_iff in Hreqs. destruct Hreqs as [Hreq Hrest].
  cbn [serve]. apply IH; [| exact Hrest].
  now apply dispatch_creates_nothing.
Qed.

Lemma only_post_creates_witness :
  query_get
    (serve seeded
       [ ("2024-03-01T00:00:00", PUT_book 7 minimal_body);
         ("2024-03-02T00:00:00", DELETE_book 3);
         ("2024-03-03T00:00:00", PUT_book 3 (JObj [("title", JStr "X")])) ]) 7
  = None.
Proof.
  apply (only_post_creates seeded 7); [reflexivity |].
  repeat constructor.
Defined.

(** ** Creating, then reading *)

(** For a request object that has a truthy [isbn], [title] and [author]
    and in which every supplied value is one its column accepts,
    [add_book] answers 201 with the row it appends: the supplied values,
    NULL for an absent [publisher] or [category], the status ['在架'] when
    [status] is absent or null, the identity counter as key, [utcnow] as
    creation date. *)
Theorem add_book_accepted (s : DB) (utcnow : datetime) (d : list (string * json)) :
  (forall field, In field required_fields -> lacks (JObj d) field = false) ->
  acceptable d = true ->
  add_book s utcnow (JObj d)
  = ({| Books := Books s ++ [created_row s utcnow d];
        BorrowRecords := BorrowRecords s;
        next_BookID := next_BookID s + 1 |},
     {| body := to_dict (created_row s utcnow d); status := 201 |}).
Proof.
  intros Hreq Hacc.
  destruct (not_lacking d "isbn") as (isbn & Eisbn & _);
    [apply Hreq; cbn; tauto |].
  destruct (not_lacking d "title") as (title & Etitle & _);
    [apply Hreq; cbn; tauto |].
  destruct (not_lacking d "author") as (author & Eauthor & _);
    [apply Hreq; cbn; tauto |].
  assert (Hfind : find (lacks (JObj d)) required_fields = None).
  { cbn [find required_fields]. rewrite !Hreq by (cbn; tauto). reflexivity. }
  assert (Htruthy : truthy (JObj d) = true).
  { destruct d; [discriminate Eisbn | reflexivity]. }
  unfold add_book. rewrite Htruthy. cbn [negb].
  rewrite first_missing_find, Hfind.
  unfold acceptable in Hacc. cbn [forallb update_fields fst snd] in Hacc.
  unfold created_row, created_status, updated, session_add_commit.
  cbn [bind py_getitem py_get py_get_default].
  rewrite Eisbn, Etitle, Eauthor in *.
  supplied d "publisher" E4; supplied d "category" E5; supplied d "status" E6;
    accepted Hacc; cbn [bind ISBN Title Author Publisher Category Status];
    try (match goal with
         | E : check_column "Status" ?v = Ok tt |- _ =>
             destruct v; try discriminate E
         end);
    cbn in *; rewrite ?Ecol, ?Ecol0, ?Ecol1, ?Ecol2, ?Ecol3, ?Ecol4; reflexivity.
Qed.

Lemma add_book_accepted_witness :
  add_book seeded "2024-03-01T00:00:00"
           (JObj [("isbn", JStr "111"); ("title", JStr "A"); ("author", JStr "B");
                  ("status", JNull); ("category", JStr "小说")])
  = ({| Books := Books seeded
                 ++ [ {| BookID := Some 4; ISBN := JStr "111"; Title := JStr "A";
                         Author := JStr "B"; Publisher := JNull;
                         Category := JStr "小说"; Status := JStr "在架";
                         CreateDate := Some "2024-03-01T00:00:00" |} ];
        BorrowRecords := [];
        next_BookID := 5 |},
     {| body := JObj [ ("bookID", JNum 4); ("isbn", JStr "111");
                       ("title", JStr "A"); ("author", JStr "B");
                       ("publisher", JNull); ("category", JStr "小说");
                       ("status", JStr "在架");
                       ("createDate", JStr "2024-03-01T00:00:00") ];
        status := 201 |}).
Proof.
  apply (add_book_accepted seeded "2024-03-01T00:00:00"
           [("isbn", JStr "111"); ("title", JStr "A"); ("author", JStr "B");
            ("status", JNull); ("category", JStr "小说")]).
  - intros field [<- | [<- | [<- | []]]]; reflexivity.
  - reflexivity.
Defined.

(** On well-formed tables, whatever the body, a POST answered with 201
    returns an id that no book had, and a GET of that id right after
    answers 200 with the same body. *)
Theorem create_then_get (s : DB) (utcnow : datetime) (data : json) :
  wf s ->
  status (snd (add_book s utcnow data)) = 201 ->
  exists i,
    field_of (snd (add_book s utcnow data)) "bookID" = Some (JNum i)
    /\ query_get s i = None
    /\ get_book (fst (add_book s utcnow data)) i
       = (fst (add_book s utcnow data),
          {| body := body (snd (add_book s utcnow data)); status := 200 |}).
Proof.
  intros Hwf.
  destruct (add_book_shape s utcnow data)
    as [(msg & code & -> & [-> | ->]) | (row & -> & Hid & _)];
    [discriminate | discriminate |].
  intros _. cbn [fst snd body]. exists (next_BookID s).
  assert (Hfresh : query_get s (next_BookID s) = None)
    by (apply counter_is_fresh; [assumption | lia]).
  split; [| split; [exact Hfresh |]].
  - unfold field_of, to_dict. cbn. now rewrite Hid.
  - unfold get_book, get_or_404, query_get in *. cbn [Books].
    rewrite (find_app_none _ _ _ Hfresh). cbn [find].
    rewrite (has_id_eq _ (next_BookID s) row Hid), Z.eqb_refl. reflexivity.
Qed.

Lemma create_then_get_witness :
  exists i,
    field_of (snd (add_book seeded "2024-03-01T00:00:00" minimal_body)) "bookID"
    = Some (JNum i)
    /\ status (snd (get_book (fst (add_book seeded "2024-03-01T00:00:00"
                                      minimal_body)) i)) = 200
    /\ i = 4.
Proof.
  destruct (create_then_get seeded "2024-03-01T00:00:00" minimal_body)
    as (i & Hi & _ & Hget).
  - exact (init_database_wf _).
  - reflexivity.
  - exists i. split; [exact Hi |]. split; [now rewrite Hget |].
    cbn in Hi. now inversion Hi.
Defined.

(** [get_all_books] lists the books in insertion order: after a POST
    answered with 201 the list is the former list followed by the body
    of that answer. *)
Theorem created_book_is_listed_last (s : DB) (utcnow : datetime) (data : json) :
  status (snd (add_book s utcnow data)) = 201 ->
  get_all_books (fst (add_book s utcnow data))
  = (fst (add_book s utcnow data),
     {| body := JArr (map to_dict (Books s)
                        ++ [body (snd (add_book s utcnow data))]);
        status := 200 |}).
Proof.
  destruct (add_book_shape s utcnow data)
    as [(msg & code & -> & [-> | ->]) | (row & -> & _)];
    [discriminate | discriminate |].
  intros _. unfold get_all_books, query_all. cbn. now rewrite map_app.
Qed.

Lemma created_book_is_listed_last_witness :
  column_of (snd (get_all_books
                    (fst (add_book seeded "2024-03-01T00:00:00" minimal_body))))
            "bookID"
  = [Some (JNum 1); Some (JNum 2); Some (JNum 3); Some (JNum 4)].
Proof.
  rewrite (created_book_is_listed_last seeded "2024-03-01T00:00:00" minimal_body);
    reflexivity.
Defined.

(** A body that is not a JSON object never creates a book: a falsy one
    (null, false, 0, the empty text, the empty array) is answered with
    400 and the general message, any other with 500, since it has no
    [get]. *)
Theorem add_book_not_object (s : DB) (utcnow : datetime) (data : json) :
  (forall d, data <> JObj d) ->
  add_book s utcnow data
  = (s, if truthy data
        then {| body := error_body ("'" ++ type_name data
                                        ++ "' object has no attribute 'get'");
                status := 500 |}
        else {| body := error_body "没有提供数据"; status := 400 |}).
Proof.
  intros Hno. unfold add_book.
  destruct data as [| b | n | t | l | d]; cbn [truthy].
  - reflexivity.
  - now destruct b.
  - now destruct (n =? 0).
  - now destruct (t =? "")%string.
  - now destruct l.
  - now contradiction (Hno d).
Qed.

Lemma add_book_not_object_witness :
  add_book seeded "2024-03-01T00:00:00" (JStr "isbn")
  = (seeded, {| body := error_body "'str' object has no attribute 'get'";
                status := 500 |})
  /\ add_book seeded "2024-03-01T00:00:00" (JNum 0)
     = (seeded, {| body := error_body "没有提供数据"; status := 400 |}).
Proof.
  split.
  - apply (add_book_not_object seeded "2024-03-01T00:00:00" (JStr "isbn")).
    discriminate.
  - apply (add_book_not_object seeded "2024-03-01T00:00:00" (JNum 0)).
    discriminate.
Defined.

(** ** Deleting *)

Lemma no_records_filter (s : DB) (book_id : Z) :
  (forall r, In r (BorrowRecords s) -> BR_BookID r <> book_id) ->
  filter (fun r => BR_BookID r =? book_id) (BorrowRecords s) = []
  /\ find (active_loan book_id) (BorrowRecords s) = None.
Proof.
  intros Hno. induction (BorrowRecords s) as [| r rs IH]; [split; reflexivity |].
  assert (Hr : (BR_BookID r =? book_id) = false)
    by (apply Z.eqb_neq, Hno; now left).
  destruct IH as [IH1 IH2]; [intros r' Hin; apply Hno; now right |].
  cbn [filter find]. unfold active_loan at 1. rewrite Hr. cbn [andb].
  now split.
Qed.

(** A book that exists and has no borrow record at all is deleted: the
    answer is 200, afterwards the id finds no book and a GET of it is
    answered with 500, and every other id finds what it found before. *)
Theorem delete_then_get (s : DB) (book_id : Z) (book : Book) :
  query_get s book_id = Some book ->
  (forall r, In r (BorrowRecords s) -> BR_BookID r <> book_id) ->
  snd (delete_book s book_id)
  = {| body := JObj [("message", JStr "图书删除成功")]; status := 200 |}
  /\ query_get (fst (delete_book s book_id)) book_id = None
  /\ snd (get_book (fst (delete_book s book_id)) book_id)
     = {| body := error_body (str NotFound); status := 500 |}
  /\ (forall other, other <> book_id ->
        query_get (fst (delete_book s book_id)) other = query_get s other)
  /\ BorrowRecords (fst (delete_book s book_id)) = BorrowRecords s.
Proof.
  intros Hget Hno. destruct (no_records_filter s book_id Hno) as [Hnone Hactive].
  unfold delete_book at 1 2 3 4 5. unfold get_or_404. rewrite Hget.
  cbn [bind except_Exception]. rewrite Hactive.
  unfold session_delete_commit. rewrite Hnone. cbn [bind except_Exception fst snd].
  assert (Hgone : query_get
                    {| Books := filter (fun b => negb (has_id book_id b)) (Books s);
                       BorrowRecords := BorrowRecords s;
                       next_BookID := next_BookID s |} book_id = None)
    by apply find_filter_self.
  repeat split.
  - exact Hgone.
  - unfold get_book, get_or_404. now rewrite Hgone.
  - intros other N. unfold query_get. cbn [Books].
    apply find_filter_other. congruence.
Qed.

Lemma delete_then_get_witness :
  status (snd (delete_book seeded 3)) = 200
  /\ query_get (fst (delete_book seeded 3)) 3 = None
  /\ status (snd (get_book (fst (delete_book seeded 3)) 3)) = 500.
Proof.
  destruct (delete_then_get seeded 3 (nth 2 (Books seeded) seeded_1))
    as (Hans & Hgone & Hget & _).
  - reflexivity.
  - intros r [].
  - split; [now rewrite Hans |]. split; [exact Hgone | now rewrite Hget].
Defined.

(** A book whose borrow records were all returned cannot be deleted
    either: the flush would set [BookID] of those records to NULL, the
    column is [nullable=False], and the handler answers 500, with the
    store's message as error, and leaves the tables. *)
Theorem delete_book_returned_loans (s : DB) (book_id : Z) (book : Book)
        (r : BorrowRecord) :
  query_get s book_id = Some book ->
  In r (BorrowRecords s) ->
  BR_BookID r = book_id ->
  (forall r', In r' (BorrowRecords s) -> BR_BookID r' = book_id ->
              ReturnDate r' <> None) ->
  exists msg,
    delete_book s book_id
    = (s, {| body := error_body msg; status := 500 |}).
Proof.
  intros Hget Hin Hfk Hret.
  unfold delete_book, get_or_404. rewrite Hget. cbn [bind except_Exception].
  assert (Hactive : find (active_loan book_id) (BorrowRecords s) = None).
  { destruct (find (active_loan book_id) (BorrowRecords s)) as [a |] eqn:E;
      [| reflexivity].
    apply find_some in E. destruct E as [Ha Hp].
    unfold active_loan in Hp. apply andb_prop in Hp. destruct Hp as [Hid Hnone].
    apply Z.eqb_eq in Hid. specialize (Hret a Ha Hid).
    destruct (ReturnDate a); [discriminate Hnone | now contradiction Hret]. }
  rewrite Hactive. unfold session_delete_commit.
  destruct (filter (fun r0 => BR_BookID r0 =? book_id) (BorrowRecords s))
    as [| x xs] eqn:E; [| eexists; reflexivity].
  assert (Hr : In r (filter (fun r0 => BR_BookID r0 =? book_id) (BorrowRecords s))).
  { apply filter_In. split; [assumption | now apply Z.eqb_eq]. }
  rewrite E in Hr. contradiction Hr.
Qed.

(** A loan of book 1 that was returned. *)
Lemma delete_book_returned_loans_witness :
  exists msg,
    delete_book
      {| Books := Books seeded;
         BorrowRecords := [ {| RecordID := 1; BR_BookID := 1;
                               BorrowerName := "王五"; BorrowDate := "2024-02-01";
                               ReturnDate := Some "2024-02-20"; Notes := None |} ];
         next_BookID := 4 |} 1
    = ({| Books := Books seeded;
          BorrowRecords := [ {| RecordID := 1; BR_BookID := 1;
                                BorrowerName := "王五"; BorrowDate := "2024-02-01";
                                ReturnDate := Some "2024-02-20"; Notes := None |} ];
          next_BookID := 4 |},
       {| body := error_body msg; status := 500 |}).
Proof.
  apply (delete_book_returned_loans _ 1 seeded_1
           {| RecordID := 1; BR_BookID := 1;
              BorrowerName := "王五"; BorrowDate := "2024-02-01";
              ReturnDate := Some "2024-02-20"; Notes := None |}).
  - reflexivity.
  - left. reflexivity.
  - reflexivity.
  - intros r' [<- | []] _. discriminate.
Defined.

Lemma filter_out_one (i : Z) (rows : list Book) (book : Book) :
  NoDup (map BookID rows) ->
  In book rows ->
  BookID book = Some i ->
  S (List.length (filter (fun b => negb (has_id i b)) rows)) = List.length rows.
Proof.
  induction rows as [| r rows IH]; [intros _ [] |].
  cbn [map]. intros Hnd Hin Hid. apply NoDup_cons_iff in Hnd.
  destruct Hnd as [Hfresh Hnd]. cbn [filter List.length].
  destruct (has_id i r) eqn:Er; cbn [negb List.length].
  - f_equal. apply has_id_true in Er.
    assert (Hall : forall b, In b rows -> negb (has_id i b) = true).
    { intros b Hb. destruct (has_id i b) eqn:Eb; [| reflexivity].
      apply has_id_true in Eb. exfalso. apply Hfresh. rewrite Er, <- Eb.
      now apply in_map. }
    clear -Hall. induction rows as [| b rows IH]; [reflexivity |].
    cbn [filter]. rewrite (Hall b (or_introl eq_refl)). cbn [List.length].
    f_equal. apply IH. intros x Hx. apply Hall. now right.
  - f_equal. destruct Hin as [-> | Hin]; [| now apply IH].
    apply has_id_true in Hid. congruence.
Qed.

(** On well-formed tables a DELETE answered with 200 removes exactly one
    book: [totalBooks] of the summary is one less than before. *)
Theorem delete_book_removes_one (s : DB) (book_id : Z) :
  wf s ->
  status (snd (delete_book s book_id)) = 200 ->
  field_of (snd (get_summary_stats (fst (delete_book s book_id)))) "totalBooks"
  = Some (JNum (count (Books s) - 1)).
Proof.
  intros (_ & Hnd & _).
  destruct (delete_book_shape s book_id)
    as [(msg & code & -> & [-> | ->]) | (book & Hget & _ & ->)];
    [discriminate | discriminate |].
  intros _. cbn [fst]. unfold get_summary_stats, field_of. cbn.
  assert (Hid := query_get_has_id s book_id book Hget).
  apply find_some in Hget. destruct Hget as [Hin _].
  unfold count. rewrite <- (filter_out_one book_id (Books s) book Hnd Hin Hid).
  do 2 f_equal. lia.
Qed.

Lemma delete_book_removes_one_witness :
  field_of (snd (get_summary_stats seeded)) "totalBooks" = Some (JNum 3)
  /\ field_of (snd (get_summary_stats (fst (delete_book seeded 1)))) "totalBooks"
     = Some (JNum 2).
Proof.
  split; [reflexivity |].
  apply (delete_book_removes_one seeded 1); [exact (init_database_wf _) |].
  reflexivity.
Defined.

(** ** Updating, then reading *)

(** Whatever the id and the body, and whatever the answer, a PUT neither
    adds nor removes a book nor changes a key: the keys of [Books], in
    order, the borrow records and the identity counter are as before. *)
Theorem update_book_keeps_ids (s : DB) (book_id : Z) (data : json) :
  map BookID (Books (fst (update_book s book_id data))) = map BookID (Books s)
  /\ BorrowRecords (fst (update_book s book_id data)) = BorrowRecords s
  /\ next_BookID (fst (update_book s book_id data)) = next_BookID s.
Proof.
  destruct (update_book_shape s book_id data)
    as [(msg & ->) | (book & t & _ & _ & _ & ->)]; cbn [fst Books].
  - repeat split.
  - repeat split. apply replace_row_ids.
Qed.

(** Whatever the body, when a PUT is answered with 200 the GET of the
    same id right after gives the same answer. *)
Theorem update_then_get (s : DB) (book_id : Z) (data : json) :
  status (snd (update_book s book_id data)) = 200 ->
  get_book (fst (update_book s book_id data)) book_id
  = update_book s book_id data.
Proof.
  destruct (update_book_shape s book_id data)
    as [(msg & ->) | (book & t & Hget & (Kid & _) & _ & ->)]; [discriminate |].
  intros _. cbn [fst].
  assert (Hobj : BookID (object t) = Some book_id)
    by (rewrite Kid; exact (query_get_has_id s book_id book Hget)).
  unfold get_book, get_or_404, query_get in *. cbn [Books].
  rewrite (find_replace_row book_id (object t) (Books s) book Hobj Hget).
  reflexivity.
Qed.

Lemma update_then_get_witness :
  get_book (fst (update_book seeded 1 (JObj [("category", JNull)]))) 1
  = update_book seeded 1 (JObj [("category", JNull)])
  /\ field_of (snd (update_book seeded 1 (JObj [("category", JNull)]))) "category"
     = Some JNull.
Proof.
  split; [| reflexivity].
  apply (update_then_get seeded 1 (JObj [("category", JNull)])). reflexivity.
Defined.

Lemma replace_row_twice (book' : Book) (rows : list Book) :
  replace_row book' (replace_row book' rows) = replace_row book' rows.
Proof.
  unfold replace_row. rewrite map_map. apply map_ext. intros r.
  destruct (BookID book') as [i |] eqn:Hid; [| reflexivity].
  destruct (has_id i r) eqn:Er; [| now rewrite Er].
  now rewrite (has_id_eq i i book' Hid), Z.eqb_refl.
Qed.

Lemma sparse_update_twice (d : list (string * json)) (book : Book) :
  sparse_update d (sparse_update d book) = sparse_update d book.
Proof.
  unfold sparse_update, updated. cbn.
  destruct (dict_get d "isbn"), (dict_get d "title"), (dict_get d "author"),
    (dict_get d "publisher"), (dict_get d "category"), (dict_get d "status");
    reflexivity.
Qed.

(** An accepted update is idempotent: sending the same request object a
    second time gives the same answer and the same tables as sending it
    once. *)
Theorem update_book_idempotent (s : DB) (book_id : Z) (book : Book)
        (d : list (string * json)) :
  query_get s book_id = Some book ->
  acceptable d = true ->
  update_book (fst (update_book s book_id (JObj d))) book_id (JObj d)
  = update_book s book_id (JObj d).
Proof.
  intros Hget Hacc.
  rewrite (update_book_accepted s book_id book d Hget Hacc). cbn [fst].
  assert (Hid : BookID (sparse_update d book) = Some book_id)
    by exact (query_get_has_id s book_id book Hget).
  rewrite (update_book_accepted _ book_id (sparse_update d book) d).
  - cbn [Books BorrowRecords next_BookID].
    now rewrite sparse_update_twice, replace_row_twice.
  - unfold query_get. cbn [Books].
    exact (find_replace_row book_id _ (Books s) book Hid Hget).
  - exact Hacc.
Qed.

Lemma update_book_idempotent_witness :
  update_book (fst (update_book seeded 2 (JObj [("status", JStr "借出")])))
              2 (JObj [("status", JStr "借出")])
  = update_book seeded 2 (JObj [("status", JStr "借出")])
  /\ status (snd (update_book seeded 2 (JObj [("status", JStr "借出")]))) = 200.
Proof.
  split; [| reflexivity].
  apply (update_book_idempotent seeded 2 (nth 1 (Books seeded) seeded_1)
           [("status", JStr "借出")]); reflexivity.
Defined.

(** ** More on the statistics *)

(** The three numbers of the summary are bounded by each other:
    [borrowedBooks] and [availableBooks] lie between 0 and [totalBooks]. *)
Theorem summary_bounds (s : DB) :
  exists total borrowed available,
    field_of (snd (get_summary_stats s)) "totalBooks" = Some (JNum total)
    /\ field_of (snd (get_summary_stats s)) "borrowedBooks" = Some (JNum borrowed)
    /\ field_of (snd (get_summary_stats s)) "availableBooks" = Some (JNum available)
    /\ 0 <= borrowed <= total
    /\ 0 <= available <= total.
Proof.
  do 3 eexists. split; [reflexivity |]. split; [reflexivity |].
  split; [reflexivity |]. unfold count.
  pose proof (filter_length_le (fun b => sql_eq (Status b) "借出") (Books s)).
  lia.
Qed.

Lemma add_to_group_positive (k : json) (groups : list (json * Z)) :
  Forall (fun e => 1 <= snd e) groups ->
  Forall (fun e => 1 <= snd e) (add_to_group k groups).
Proof.
  induction groups as [| [k' n] rest IH]; cbn [add_to_group]; intros H.
  - repeat constructor. cbn. lia.
  - apply Forall_cons_iff in H. destruct H as [Hn Hrest]. cbn in Hn.
    destruct (same_group k k'); constructor; cbn; try lia; auto.
Qed.

Lemma add_to_group_length (k : json) (groups : list (json * Z)) :
  (List.length (add_to_group k groups) <= S (List.length groups))%nat.
Proof.
  induction groups as [| [k' n] rest IH]; cbn [add_to_group List.length];
    [lia |].
  destruct (same_group k k'); cbn [List.length]; lia.
Qed.

Lemma group_by_Category_bounds (rows : list Book) (groups : list (json * Z)) :
  Forall (fun e => 1 <= snd e) groups ->
  Forall (fun e => 1 <= snd e)
         (fold_left (fun g b => add_to_group (Category b) g) rows groups)
  /\ (List.length (fold_left (fun g b => add_to_group (Category b) g) rows groups)
      <= List.length groups + List.length rows)%nat.
Proof.
  revert groups. induction rows as [| b rows IH]; intros groups H; cbn [fold_left].
  - split; [assumption | cbn; lia].
  - destruct (IH (add_to_group (Category b) groups)
                 (add_to_group_positive _ _ H)) as [Hpos Hlen].
    split; [assumption |].
    pose proof (add_to_group_length (Category b) groups). cbn [List.length]. lia.
Qed.

(** The category statistics have no empty entry: every count is at least
    1, there are at most as many entries as books, and there is no entry
    at all exactly when there is no book. *)
Theorem category_counts_positive (s : DB) :
  (forall label n, In (label, n) (category_stats s) -> 1 <= n)
  /\ (List.length (category_stats s) <= List.length (Books s))%nat
  /\ (category_stats s = [] <-> Books s = []).
Proof.
  destruct (group_by_Category_bounds (Books s) [] (Forall_nil _)) as [Hpos Hlen].
  fold (group_by_Category (Books s)) in Hpos, Hlen.
  split; [| split].
  - intros label n Hin. unfold category_stats in Hin.
    apply in_map_iff in Hin. destruct Hin as ([k m] & E & Hin).
    cbn in E. inversion E; subst.
    rewrite Forall_forall in Hpos. exact (Hpos (k, n) Hin).
  - unfold category_stats. rewrite length_map. cbn in Hlen. lia.
  - split.
    + intros E.
      assert (Hsum : sum_counts (category_stats s) = count (Books s)).
      { unfold category_stats, group_by_Category.
        rewrite sum_counts_relabel with (f := fun k => py_or k (JStr "未分类")).
        rewrite sum_counts_fold. cbn. lia. }
      rewrite E in Hsum. unfold count in Hsum. cbn in Hsum.
      destruct (Books s); [reflexivity | cbn in Hsum; lia].
    + intros E. unfold category_stats, group_by_Category. now rewrite E.
Qed.

Lemma category_counts_positive_witness :
  In (JStr "文学", 1) (category_stats seeded)
  /\ (forall label n, In (label, n) (category_stats seeded) -> 1 <= n)
  /\ category_stats created = [].
Proof.
  split; [right; left; reflexivity |].
  split.
  - exact (proj1 (category_counts_positive seeded)).
  - apply (proj2 (proj2 (category_counts_positive created))). reflexivity.
Defined.

Lemma add_to_group_keys (k : json) (groups : list (json * Z)) :
  map fst (add_to_group k groups)
  = if existsb (same_group k) (map fst groups)
    then map fst groups
    else (map fst groups ++ [k])%list.
Proof.
  induction groups as [| [k' n] rest IH]; cbn [add_to_group map existsb fst];
    [reflexivity |].
  destruct (same_group k k'); cbn [orb map fst]; [reflexivity |].
  rewrite IH. now destruct (existsb (same_group k) (map fst rest)).
Qed.

Lemma add_to_group_NoDup (k : json) (groups : list (json * Z)) :
  same_group k k = true ->
  NoDup (map fst groups) ->
  NoDup (map fst (add_to_group k groups)).
Proof.
  intros Hk Hnd. rewrite add_to_group_keys.
  destruct (existsb (same_group k) (map fst groups)) eqn:E; [assumption |].
  apply NoDup_app; [assumption | repeat constructor; intros [] |].
  intros a Ha [<- | []].
  assert (H : existsb (same_group k) (map fst groups) = true)
    by (apply existsb_exists; now exists k).
  congruence.
Qed.

Lemma group_by_Category_NoDup (rows : list Book) (groups : list (json * Z)) :
  Forall (fun b => same_group (Category b) (Category b) = true) rows ->
  NoDup (map fst groups) ->
  NoDup (map fst (fold_left (fun g b => add_to_group (Category b) g) rows groups)).
Proof.
  revert groups. induction rows as [| b rows IH]; intros groups Hrows Hnd;
    cbn [fold_left]; [assumption |].
  apply Forall_cons_iff in Hrows. destruct Hrows as [Hb Hrows].
  apply IH; [assumption |]. now apply add_to_group_NoDup.
Qed.

Lemma group_by_Category_keys (rows : list Book) (groups : list (json * Z)) :
  Forall (fun b => same_group (Category b) (Category b) = true) rows ->
  Forall (fun k => same_group k k = true) (map fst groups) ->
  Forall (fun k => same_group k k = true)
         (map fst (fold_left (fun g b => add_to_group (Category b) g) rows groups)).
Proof.
  revert groups. induction rows as [| b rows IH]; intros groups Hr Hk;
    cbn [fold_left]; [assumption |].
  apply Forall_cons_iff in Hr. destruct Hr as [Hb Hr].
  apply IH; [assumption |]. rewrite add_to_group_keys.
  destruct (existsb (same_group (Category b)) (map fst groups)); [assumption |].
  apply Forall_app. split; [assumption | now repeat constructor].
Qed.

Lemma group_count_entry (k : json) (n : Z) (groups : list (json * Z)) :
  NoDup (map fst groups) ->
  same_group k k = true ->
  In (k, n) groups ->
  group_count k groups = n.
Proof.
  unfold group_count.
  induction groups as [| [k' n'] rest IH]; [intros _ _ [] |].
  cbn [map fst find]. intros Hnd Hk Hin. apply NoDup_cons_iff in Hnd.
  destruct Hnd as [Hfresh Hnd]. destruct Hin as [E | Hin].
  - inversion E; subst. now rewrite Hk.
  - destruct (same_group k k') eqn:Ek.
    + apply same_group_eq in Ek. subst k'. exfalso. apply Hfresh.
      apply in_map_iff. now exists (k, n).
    + now apply IH.
Qed.

Lemma wf_categories (s : DB) :
  wf s ->
  Forall (fun b => same_group (Category b) (Category b) = true) (Books s).
Proof.
  intros (_ & _ & Hrows). eapply Forall_impl; [| exact Hrows].
  intros b (_ & _ & Hcols).
  assert (H := proj1 (check_columns_Ok _ _) Hcols "Category").
  specialize (H ltac:(cbn; tauto)). cbn in H.
  destruct (Category b); try discriminate H; cbn; [reflexivity |].
  apply String.eqb_refl.
Qed.

(** On well-formed tables, an entry of the category statistics whose
    label is not the substitute ['未分类'] is labelled with a category
    text, counts exactly the books of that category, and is the only
    entry with that label. *)
Theorem category_entry_exact (s : DB) (label : json) (n : Z) :
  wf s ->
  In (label, n) (category_stats s) ->
  label <> JStr "未分类" ->
  n = with_category label (Books s)
  /\ 1 <= n
  /\ forall m, In (label, m) (category_stats s) -> m = n.
Proof.
  intros Hwf Hin Hlabel.
  assert (Hcats := wf_categories s Hwf).
  assert (Hnd : NoDup (map fst (group_by_Category (Books s))))
    by (apply group_by_Category_NoDup; [assumption | constructor]).
  assert (Hcount : forall k, group_count k (group_by_Category (Books s))
                             = with_category k (Books s)).
  { intros k. unfold group_by_Category. rewrite group_count_fold. cbn. lia. }
  assert (Hentry : forall m, In (label, m) (category_stats s) ->
                             In (label, m) (group_by_Category (Books s))).
  { intros m Hm. unfold category_stats in Hm. apply in_map_iff in Hm.
    destruct Hm as ([k c] & E & Hk). cbn [fst snd] in E.
    unfold py_or in E. destruct (truthy k).
    - now rewrite <- E.
    - exfalso. apply Hlabel. congruence. }
  assert (Hkey : same_group label label = true).
  { pose proof (group_by_Category_keys (Books s) [] Hcats (Forall_nil _)) as Hkeys.
    fold (group_by_Category (Books s)) in Hkeys.
    rewrite Forall_forall in Hkeys. apply Hkeys.
    apply in_map_iff. exists (label, n). split; [reflexivity | now apply Hentry]. }
  assert (Hn : n = with_category label (Books s)).
  { rewrite <- Hcount. symmetry.
    apply group_count_entry; [assumption | assumption | now apply Hentry]. }
  split; [exact Hn |]. split.
  - destruct (group_by_Category_bounds (Books s) [] (Forall_nil _)) as [Hpos _].
    rewrite Forall_forall in Hpos. exact (Hpos (label, n) (Hentry n Hin)).
  - intros m Hm. rewrite Hn, <- Hcount. symmetry.
    apply group_count_entry; [assumption | assumption | now apply Hentry].
Qed.

Lemma category_entry_exact_witness :
  In (JStr "计算机", 2) (category_stats seeded)
  /\ with_category (JStr "计算机") (Books seeded) = 2.
Proof.
  split; [left; reflexivity |].
  destruct (category_entry_exact seeded (JStr "计算机") 2) as (Hn & _).
  - exact (init_database_wf _).
  - left. reflexivity.
  - discriminate.
  - now rewrite <- Hn.
Defined.

(** ** More on searching *)






(** ** Startup *)

(** [init_database] seeds an empty [Books] table only: tables that hold
    a book are left as they are, so running it again after the seed
    changes nothing, and the seeded tables are well-formed. *)
Theorem init_database_idempotent (s : DB) (t1 t2 : datetime) :
  (Books s <> [] -> init_database s t1 = s)
  /\ (Books s = [] -> List.length (Books (init_database s t1)) = 3%nat)
  /\ init_database (init_database s t1) t2 = init_database s t1
  /\ wf (init_database created t1).
Proof.
  destruct s as [rows records counter]. cbn [Books].
  destruct rows as [| b rows].
  - split; [| split; [| split]].
    + intros H. now contradiction H.
    + reflexivity.
    + reflexivity.
    + apply init_database_wf.
  - assert (E : forall t, init_database
                            {| Books := b :: rows; BorrowRecords := records;
                               next_BookID := counter |} t
                          = {| Books := b :: rows; BorrowRecords := records;
                               next_BookID := counter |}).
    { intros t. unfold init_database, count. cbn [Books List.length].
      destruct (Z.eqb_spec (Z.of_nat (S (List.length rows))) 0) as [H | _];
        [lia | reflexivity]. }
    split; [| split; [| split]].
    + intros _. apply E.
    + intros H. discriminate H.
    + now rewrite !E.
    + apply init_database_wf.
Qed.

Lemma init_database_idempotent_witness :
  init_database seeded "2025-01-01T00:00:00" = seeded
  /\ map Title (Books seeded)
     = [JStr "软件工程"; JStr "Java编程思想"; JStr "百年孤独"].
Proof.
  split; [| reflexivity].
  destruct (init_database_idempotent seeded "2025-01-01T00:00:00"
              "2025-01-01T00:00:00") as (Hkeep & _).
  apply Hkeep. discriminate.
Defined.

(** ** Borrow records *)

(** The [book] nested in the dict of a borrow record is the body GET
    answers with for the record's [bookID], and is null exactly when no
    book has that id, in which case that GET is answered with 500. *)
Theorem BorrowRecord_to_dict_book (s : DB) (r : BorrowRecord) :
  match BorrowRecord_to_dict s r with
  | JObj d =>
      dict_get d "bookID" = Some (JNum (BR_BookID r))
      /\ ((exists book,
              query_get s (BR_BookID r) = Some book
              /\ BookID book = Some (BR_BookID r)
              /\ dict_get d "book" = Some (to_dict book)
              /\ snd (get_book s (BR_BookID r))
                 = {| body := to_dict book; status := 200 |})
          \/ (query_get s (BR_BookID r) = None
              /\ dict_get d "book" = Some JNull
              /\ status (snd (get_book s (BR_BookID r))) = 500))
  | _ => False
  end.
Proof.
  unfold BorrowRecord_to_dict, get_book, get_or_404.
  split; [reflexivity |].
  destruct (query_get s (BR_BookID r)) as [book |] eqn:E.
  - left. exists book. repeat split.
    exact (query_get_has_id s _ book E).
  - right. repeat split.
Qed.

(** No request orphans a borrow record: when every borrow record is of a
    book in [Books], it still is after any request, and the request did
    not touch the borrow records. *)
Theorem dispatch_keeps_references (s : DB) (utcnow : datetime) (req : request) :
  references_ok s ->
  references_ok (fst (dispatch s utcnow req))
  /\ BorrowRecords (fst (dispatch s utcnow req)) = BorrowRecords s.
Proof.
  intros Href.
  destruct req as [| | i | data | i data | i | kw | |]; cbn [dispatch];
    try (split; [exact Href | reflexivity]).
  - unfold get_book. destruct (get_or_404 s i); (split; [exact Href | reflexivity]).
  - destruct (add_book_shape s utcnow data)
      as [(msg & code & -> & _) | (row & -> & _)];
      [split; [exact Href | reflexivity] |].
    cbn [fst]. split; [| reflexivity].
    intros r Hr. cbn [BorrowRecords] in Hr. specialize (Href r Hr).
    unfold query_get in *. cbn [Books].
    destruct (find (has_id (BR_BookID r)) (Books s)) as [b |] eqn:E;
      [| now contradiction Href].
    rewrite (find_app_some _ _ [row] _ E). discriminate.
  - destruct (update_book_shape s i data)
      as [(msg & ->) | (book & t & Hget & (Kid & _) & _ & ->)];
      [split; [exact Href | reflexivity] |].
    cbn [fst]. split; [| reflexivity].
    assert (Hobj : BookID (object t) = Some i)
      by (rewrite Kid; exact (query_get_has_id s i book Hget)).
    intros r Hr. cbn [BorrowRecords] in Hr. specialize (Href r Hr).
    unfold query_get in *. cbn [Books].
    destruct (Z.eq_dec i (BR_BookID r)) as [<- | N].
    + rewrite (find_replace_row i (object t) (Books s) book Hobj Hget).
      discriminate.
    + now rewrite (find_replace_row_other i _ (object t) (Books s) Hobj N).
  - destruct (delete_book_shape s i)
      as [(msg & code & -> & _) | (book & _ & Hnone & ->)];
      [split; [exact Href | reflexivity] |].
    cbn [fst]. split; [| reflexivity].
    intros r Hr. cbn [BorrowRecords] in Hr. specialize (Href r Hr).
    unfold query_get in *. cbn [Books].
    assert (N : i <> BR_BookID r).
    { intros ->.
      assert (H : In r (filter (fun r0 => BR_BookID r0 =? BR_BookID r)
                               (BorrowRecords s)))
        by (apply filter_In; split; [assumption | apply Z.eqb_refl]).
      rewrite Hnone in H. contradiction H. }
    now rewrite (find_filter_other i _ (Books s) N).
Qed.

Lemma dispatch_keeps_references_witness :
  references_ok on_loan
  /\ references_ok (fst (dispatch on_loan "2024-03-01T00:00:00" (DELETE_book 1)))
  /\ references_ok (fst (dispatch on_loan "2024-03-01T00:00:00" (DELETE_book 2))).
Proof.
  assert (H : references_ok on_loan).
  { intros r [<- | []]. discriminate. }
  split; [exact H |]. split.
  - apply (dispatch_keeps_references on_loan "2024-03-01T00:00:00" (DELETE_book 1) H).
  - apply (dispatch_keeps_references on_loan "2024-03-01T00:00:00" (DELETE_book 2) H).
Defined.

(** ** Edge cases of updating, and creating then deleting *)

(** Two rows of a table with pairwise distinct keys that have the same
    key are one row. *)
Lemma distinct_keys_same_row (rows : list Book) (a b : Book) :
  NoDup (map BookID rows) -> In a rows -> In b rows ->
  BookID a = BookID b -> a = b.
Proof.
  induction rows as [| r rows IH]; [intros _ [] |].
  cbn [map]. intros Hnd Ha Hb E. apply NoDup_cons_iff in Hnd.
  destruct Hnd as [Hfresh Hnd].
  destruct Ha as [-> | Ha], Hb as [-> | Hb]; [reflexivity | | | now apply IH].
  - exfalso. apply Hfresh. rewrite E. now apply in_map.
  - exfalso. apply Hfresh. rewrite <- E. now apply in_map.
Qed.

Lemma replace_row_same (s : DB) (book_id : Z) (book : Book) :
  wf s -> query_get s book_id = Some book ->
  replace_row book (Books s) = Books s.
Proof.
  intros (_ & Hnd & _) Hget.
  assert (Hid := query_get_has_id s book_id book Hget).
  apply find_some in Hget. destruct Hget as [Hin _].
  unfold replace_row. rewrite Hid.
  rewrite <- (map_id (Books s)) at 2. apply map_ext_in. intros r Hr.
  destruct (has_id book_id r) eqn:Er; [| reflexivity].
  apply has_id_true in Er.
  apply (distinct_keys_same_row (Books s) book r Hnd Hin Hr). congruence.
Qed.

(** On well-formed tables, a PUT on an existing book whose body presents
    none of the six keys (the empty object, an object of other keys, a
    text or an array in which no key occurs) is answered with 200 and
    the book as it is, and changes nothing. *)
Theorem update_book_without_fields (s : DB) (book_id : Z) (book : Book)
        (data : json) :
  wf s ->
  query_get s book_id = Some book ->
  (forall key, In key (map fst update_fields) -> py_in key data = Ok false) ->
  update_book s book_id data
  = (s, {| body := to_dict book; status := 200 |}).
Proof.
  intros Hwf Hget Habsent.
  unfold update_book. rewrite (get_or_404_present _ _ _ Hget).
  unfold assign_if_present. cbn [bind].
  rewrite !Habsent by (cbn; tauto). cbn [bind except_Exception].
  unfold session_commit. cbn [object dirty check_columns bind].
  rewrite (replace_row_same s book_id book Hwf Hget).
  now destruct s.
Qed.

Lemma update_book_without_fields_witness :
  update_book seeded 1 (JObj [("pages", JNum 300)])
  = (seeded, {| body := to_dict seeded_1; status := 200 |})
  /\ update_book seeded 1 (JStr "hello")
     = (seeded, {| body := to_dict seeded_1; status := 200 |}).
Proof.
  split.
  - apply (update_book_without_fields seeded 1 seeded_1 (JObj [("pages", JNum 300)])).
    + exact (init_database_wf _).
    + reflexivity.
    + intros key Hkey. cbn in Hkey.
      repeat (destruct Hkey as [<- | Hkey]; [reflexivity |]). contradiction.
  - apply (update_book_without_fields seeded 1 seeded_1 (JStr "hello")).
    + exact (init_database_wf _).
    + reflexivity.
    + intros key Hkey. cbn in Hkey.
      repeat (destruct Hkey as [<- | Hkey]; [reflexivity |]). contradiction.
Defined.

(** A PUT on an existing book whose body is null, a boolean or a number
    is answered with 500: [in] does not apply to such a value.  Nothing
    changes. *)
Theorem update_book_scalar_body (s : DB) (book_id : Z) (book : Book)
        (data : json) :
  query_get s book_id = Some book ->
  match data with JNull | JBool _ | JNum _ => True | _ => False end ->
  update_book s book_id data
  = (s, {| body := error_body ("argument of type '" ++ type_name data
                                  ++ "' is not iterable");
           status := 500 |}).
Proof.
  intros Hget Hscalar.
  unfold update_book. rewrite (get_or_404_present _ _ _ Hget).
  destruct data; try contradiction; reflexivity.
Qed.

Lemma update_book_scalar_body_witness :
  update_book seeded 1 JNull
  = (seeded, {| body := error_body "argument of type 'NoneType' is not iterable";
                status := 500 |}).
Proof.
  apply (update_book_scalar_body seeded 1 seeded_1 JNull); [reflexivity | exact I].
Defined.

Lemma filter_keeps_all {A} (p : A -> bool) (l : list A) :
  (forall a, In a l -> p a = true) -> filter p l = l.
Proof.
  induction l as [| a l IH]; [reflexivity |]. intros H.
  cbn [filter]. rewrite (H a (or_introl eq_refl)). f_equal.
  apply IH. intros x Hx. apply H. now right.
Qed.

(** On well-formed tables whose borrow records are all of existing
    books, creating a book and deleting it right away by the returned id
    is answered with 200 and gives back the former [Books] and borrow
    records. *)
Theorem create_then_delete (s : DB) (utcnow : datetime) (data : json) :
  wf s ->
  references_ok s ->
  status (snd (add_book s utcnow data)) = 201 ->
  exists i,
    field_of (snd (add_book s utcnow data)) "bookID" = Some (JNum i)
    /\ snd (delete_book (fst (add_book s utcnow data)) i)
       = {| body := JObj [("message", JStr "图书删除成功")]; status := 200 |}
    /\ Books (fst (delete_book (fst (add_book s utcnow data)) i)) = Books s
    /\ BorrowRecords (fst (delete_book (fst (add_book s utcnow data)) i))
       = BorrowRecords s.
Proof.
  intros Hwf Href.
  destruct (add_book_shape s utcnow data)
    as [(msg & code & -> & [-> | ->]) | (row & -> & Hid & _)];
    [discriminate | discriminate |].
  intros _. cbn [fst snd]. exists (next_BookID s).
  assert (Hfresh : forall j, next_BookID s <= j -> query_get s j = None)
    by (intros j; now apply counter_is_fresh).
  split; [unfold field_of, to_dict; cbn; now rewrite Hid |].
  assert (Hnorec : forall r, In r (BorrowRecords s) -> BR_BookID r <> next_BookID s).
  { intros r Hr E. apply (Href r Hr). rewrite E. apply Hfresh. lia. }
  set (s1 := {| Books := Books s ++ [row]; BorrowRecords := BorrowRecords s;
                next_BookID := next_BookID s + 1 |}).
  assert (Hget : query_get s1 (next_BookID s) = Some row).
  { unfold query_get, s1. cbn [Books].
    rewrite (find_app_none _ _ _ (Hfresh (next_BookID s) (Z.le_refl _))).
    cbn [find]. now rewrite (has_id_eq _ (next_BookID s) row Hid), Z.eqb_refl. }
  destruct (no_records_filter s1 (next_BookID s) Hnorec) as [Hnone Hactive].
  unfold delete_book, get_or_404. rewrite Hget. cbn [bind except_Exception].
  rewrite Hactive. unfold session_delete_commit. rewrite Hnone.
  cbn [bind except_Exception fst snd]. unfold s1.
  cbn [Books BorrowRecords next_BookID].
  split; [reflexivity |]. split; [| reflexivity].
  rewrite filter_app. cbn [filter].
  rewrite (has_id_eq _ (next_BookID s) row Hid), Z.eqb_refl. cbn [negb].
  rewrite app_nil_r. apply filter_keeps_all. intros b Hb.
  destruct (has_id (next_BookID s) b) eqn:Eb; [| reflexivity].
  exfalso.
  destruct (find_In_some (has_id (next_BookID s)) (Books s) b Hb Eb) as [y Hy].
  specialize (Hfresh (next_BookID s) (Z.le_refl _)).
  unfold query_get in Hfresh. congruence.
Qed.

Lemma create_then_delete_witness :
  exists i,
    field_of (snd (add_book seeded "2024-03-01T00:00:00" minimal_body)) "bookID"
    = Some (JNum i)
    /\ status (snd (delete_book
                      (fst (add_book seeded "2024-03-01T00:00:00" minimal_body))
                      i)) = 200
    /\ Books (fst (delete_book
                     (fst (add_book seeded "2024-03-01T00:00:00" minimal_body))
                     i)) = Books seeded.
Proof.
  destruct (create_then_delete seeded "2024-03-01T00:00:00" minimal_body)
    as (i & Hi & Hans & Hbooks & _).
  - exact (init_database_wf _).
  - intros r [].
  - reflexivity.
  - exists i. split; [exact Hi |]. split; [now rewrite Hans | exact Hbooks].
Defined.
